(** * Help-desk backend: ticket lifecycle and access control

    A shallow embedding of the Express/Prisma handlers of the ticketing
    backend (controllers/ticketController.js, controllers/comentarioController.js,
    middleware/auth.js, utils/helpers.js, routes/tickets.js,
    routes/comentarios.js) and the properties of the lifecycle and
    access-control engine checked against them.

    Conventions.  The relational store is a record of tables; every Prisma
    call is a computation in a state-and-exception monad over that record, so
    that the writes made before a rejected call stay in the store, exactly as
    in the handlers, none of which opens a transaction.  A handler's
    [try { ... } catch] turns any exception into its 500 answer.  The
    notification fan-out (services/notificationService.js) swallows its own
    failures and writes only the notification table; it cannot change an
    answer or any table modelled here and is left out. *)

From Stdlib Require Import Floats Ascii String.
From stdpp Require Import base option list gmap strings pretty sorting.

Local Open Scope string_scope.

(** ** Schema (prisma/schema.prisma and its SQL migration) *)

Module Esquema.

Inductive RolUsuario := ADMIN | JEFE_DEPARTAMENTO | AGENTE | CLIENTE.
Inductive EstadoTicket :=
  ABIERTO | EN_PROGRESO | EN_ESPERA | RESUELTO | CERRADO | CANCELADO.
Inductive PrioridadTicket := BAJA | MEDIA | ALTA | URGENTE.

#[export] Instance RolUsuario_eq_dec : EqDecision RolUsuario.
Proof. solve_decision. Defined.
#[export] Instance EstadoTicket_eq_dec : EqDecision EstadoTicket.
Proof. solve_decision. Defined.
#[export] Instance PrioridadTicket_eq_dec : EqDecision PrioridadTicket.
Proof. solve_decision. Defined.

(** Row identifiers are UUID strings. *)
Abbreviation Id := string.

(** A JavaScript [Date], through the three accessors the code uses.
    [getMonth] counts from 0; [getTime] is the instant that orders dates. *)
Record Date := { getFullYear : N; getMonth : N; getTime : N }.

Record Usuario := {
  u_id : Id;
  u_email : string;
  u_nombreCompleto : string;
  u_rol : RolUsuario;
  u_estaActivo : bool;
  u_departamentoId : option Id
}.

(** The columns of [tickets] that the lifecycle, the scope checks and the list
    filters read or write.  [horasReales], [fechaResolucion], [fechaCierre] and
    [agenteId] are nullable and have no default. *)
Record Ticket := {
  t_id : Id;
  t_numeroTicket : string;
  t_asunto : string;
  t_descripcion : string;
  t_estado : EstadoTicket;
  t_prioridad : PrioridadTicket;
  t_horasReales : option float;
  t_fechaResolucion : option Date;
  t_fechaCierre : option Date;
  t_creadoEn : Date;
  t_creadorId : Id;
  t_agenteId : option Id;
  t_departamentoId : Id;
  t_categoriaId : Id
}.

Record Comentario := {
  c_id : Id;
  c_contenido : string;
  c_esInterno : bool;
  c_creadoEn : Date;
  c_autorId : Id;
  c_ticketId : Id
}.

Record HistorialEstado := {
  h_estadoAnterior : option EstadoTicket;
  h_estadoNuevo : EstadoTicket;
  h_comentario : option string;
  h_cambiadoEn : Date;
  h_ticketId : Id
}.

Record RegistroTrabajo := {
  r_descripcion : string;
  r_horas : float;
  r_fechaTrabajo : Date;
  r_agenteId : Id;
  r_ticketId : Id
}.

(** The store.  Tables with a looked-up key are finite maps; the child tables
    that are only appended to and scanned are lists in insertion order. *)
Record DB := {
  usuarios : gmap string Usuario;
  tickets : gmap string Ticket;
  comentarios : list Comentario;
  historialEstados : list HistorialEstado;
  registrosTrabajo : list RegistroTrabajo
}.

Definition con_tickets (ts : gmap string Ticket) (db : DB) : DB :=
  {| usuarios := usuarios db; tickets := ts; comentarios := comentarios db;
     historialEstados := historialEstados db;
     registrosTrabajo := registrosTrabajo db |}.

Definition con_historial (hs : list HistorialEstado) (db : DB) : DB :=
  {| usuarios := usuarios db; tickets := tickets db;
     comentarios := comentarios db; historialEstados := hs;
     registrosTrabajo := registrosTrabajo db |}.

Definition con_registros (rs : list RegistroTrabajo) (db : DB) : DB :=
  {| usuarios := usuarios db; tickets := tickets db;
     comentarios := comentarios db; historialEstados := historialEstados db;
     registrosTrabajo := rs |}.

Definition con_comentarios (cs : list Comentario) (db : DB) : DB :=
  {| usuarios := usuarios db; tickets := tickets db; comentarios := cs;
     historialEstados := historialEstados db;
     registrosTrabajo := registrosTrabajo db |}.

End Esquema.
Export Esquema.

(** ** Store computations *)

Module Efecto.

(** What a Prisma call or a property read can throw. *)
Inductive Excepcion :=
| TypeError            (* property read on null *)
| P2002                (* unique constraint *)
| P2003                (* foreign key constraint *)
| P2025                (* record to update not found *)
| ValidationError.     (* argument rejected by the client, e.g. null for a required column *)

Inductive Resultado (A : Type) :=
| Ok (a : A)
| Lanza (e : Excepcion).
Arguments Ok {A} a.
Arguments Lanza {A} e.

(** A computation reads and writes the store and may throw; the store reached
    when it throws is kept. *)
Definition M (A : Type) : Type := DB -> Resultado A * DB.

Definition ret {A} (a : A) : M A := fun db => (Ok a, db).
Definition lanzar {A} (e : Excepcion) : M A := fun db => (Lanza e, db).
Definition bind {A B} (m : M A) (k : A -> M B) : M B :=
  fun db => match m db with
            | (Ok a, db') => k a db'
            | (Lanza e, db') => (Lanza e, db')
            end.
(** [try { m } catch (e) { h e }] *)
Definition atrapar {A} (m : M A) (h : Excepcion -> M A) : M A :=
  fun db => match m db with
            | (Ok a, db') => (Ok a, db')
            | (Lanza e, db') => h e db'
            end.
Definition leer : M DB := fun db => (Ok db, db).
Definition escribir (db' : DB) : M unit := fun _ => (Ok tt, db').

End Efecto.
Export Efecto.

Declare Scope efecto_scope.
Delimit Scope efecto_scope with efecto.
Notation "x <- m ;; k" := (bind m (fun x => k))
  (at level 100, m at next level, right associativity) : efecto_scope.
Notation "m ;; k" := (bind m (fun _ => k))
  (at level 100, right associativity) : efecto_scope.

Local Open Scope efecto_scope.

(** ** The Prisma calls the handlers make *)

Module Prisma.

(** Insertion sort, for [orderBy]; [antes a b] says that [a] may precede [b]. *)
Fixpoint insertar {A} (antes : A -> A -> bool) (x : A) (l : list A) : list A :=
  match l with
  | [] => [x]
  | y :: l' => if antes x y then x :: l else y :: insertar antes x l'
  end.

Definition ordenar {A} (antes : A -> A -> bool) (l : list A) : list A :=
  foldr (insertar antes) [] l.

Definition filas (db : DB) : list Ticket := (map_to_list (tickets db)).*2.

(** *** [where] of [ticket.findMany], [ticket.count] and [ticket.findFirst]

    A field left out of the object is [None].  [w_departamentoId] can be
    given JavaScript's [null] ([Some None]): the handler copies it from the
    requesting user, whose department is nullable. *)
Record TicketWhereInput := {
  w_creadorId : option Id;
  w_agenteId : option Id;
  w_departamentoId : option (option Id);
  w_estado : option EstadoTicket;
  w_prioridad : option PrioridadTicket;
  w_categoriaId : option Id;
  w_OR_contains : option string
}.

Definition minuscula (c : ascii) : ascii :=
  let n := N_of_ascii c in
  if ((65 <=? n) && (n <=? 90))%N then ascii_of_N (n + 32) else c.

Fixpoint minusculas (s : string) : string :=
  match s with
  | EmptyString => EmptyString
  | String c s' => String (minuscula c) (minusculas s')
  end.

Fixpoint subcadena (p s : string) : bool :=
  String.prefix p s ||
  match s with
  | EmptyString => false
  | String _ s' => subcadena p s'
  end.

(** [{ contains: p, mode: 'insensitive' }] *)
Definition contiene (p s : string) : bool :=
  subcadena (minusculas p) (minusculas s).

Definition campo {A} `{EqDecision A} (f : option A) (v : A) : bool :=
  match f with
  | None => true
  | Some x => bool_decide (x = v)
  end.

(** Does a row satisfy the [where] object?  All given fields must hold; the
    [OR] list holds when one of its three [contains] does. *)
Definition cumple (w : TicketWhereInput) (t : Ticket) : bool :=
  campo (w_creadorId w) (t_creadorId t)
  && match w_agenteId w with
     | None => true
     | Some a => bool_decide (t_agenteId t = Some a)
     end
  && match w_departamentoId w with
     | None => true
     | Some d => bool_decide (d = Some (t_departamentoId t))
     end
  && campo (w_estado w) (t_estado t)
  && campo (w_prioridad w) (t_prioridad t)
  && campo (w_categoriaId w) (t_categoriaId t)
  && match w_OR_contains w with
     | None => true
     | Some b => contiene b (t_numeroTicket t) || contiene b (t_asunto t)
                 || contiene b (t_descripcion t)
     end.

(** [departamentoId] is a required column: the client rejects [null] for it. *)
Definition whereValido (w : TicketWhereInput) : bool :=
  negb (bool_decide (w_departamentoId w = Some None)).

Definition rango (p : PrioridadTicket) : N :=
  match p with BAJA => 0 | MEDIA => 1 | ALTA => 2 | URGENTE => 3 end.

(** [orderBy: [{ prioridad: 'desc' }, { creadoEn: 'desc' }]] *)
Definition prioridad_creadoEn_desc (a b : Ticket) : bool :=
  (rango (t_prioridad b) <? rango (t_prioridad a))%N
  || (bool_decide (t_prioridad a = t_prioridad b)
      && (getTime (t_creadoEn b) <=? getTime (t_creadoEn a))%N).

(** [ticket.findMany({ where, orderBy, skip, take })] *)
Definition ticket_findMany (w : TicketWhereInput)
    (antes : Ticket -> Ticket -> bool) (skip take : nat) : M (list Ticket) :=
  db <- leer ;;
  if whereValido w
  then ret (firstn take (skipn skip
              (ordenar antes (List.filter (cumple w) (filas db)))))
  else lanzar ValidationError.

(** [ticket.count({ where })] *)
Definition ticket_count (w : TicketWhereInput) : M nat :=
  db <- leer ;;
  if whereValido w
  then ret (length (List.filter (cumple w) (filas db)))
  else lanzar ValidationError.

(** [ticket.findUnique({ where: { id } })] *)
Definition ticket_findUnique (id : Id) : M (option Ticket) :=
  db <- leer ;; ret (tickets db !! id).

(** *** [data] of [ticket.update] and [ticket.updateMany]

    Of the columns, those that a handler or a property below writes.  A
    field left out is [None]; a nullable column can be set to [null]
    ([Some None]).  [horasReales] also takes the atomic [{ increment: n }],
    which the client compiles to [SET col = col + n]: a column that holds
    NULL is not updated by it (NULL + n is NULL), as the client's reference
    says of all its atomic number operations. *)
Inductive FloatUpdate :=
| FSet (v : option float)
| FIncrement (n : float).

Record TicketUpdateInput := {
  d_asunto : option string;
  d_descripcion : option string;
  d_estado : option EstadoTicket;
  d_agenteId : option (option Id);
  d_horasReales : option FloatUpdate;
  d_fechaResolucion : option (option Date);
  d_fechaCierre : option (option Date)
}.

Definition sinCambios : TicketUpdateInput :=
  {| d_asunto := None; d_descripcion := None; d_estado := None;
     d_agenteId := None; d_horasReales := None; d_fechaResolucion := None;
     d_fechaCierre := None |}.

Definition aplicarFloat (u : FloatUpdate) (actual : option float) : option float :=
  match u with
  | FSet v => v
  | FIncrement n => (fun h => (h + n)%float) <$> actual
  end.

Definition aplicar (d : TicketUpdateInput) (t : Ticket) : Ticket :=
  {| t_id := t_id t;
     t_numeroTicket := t_numeroTicket t;
     t_asunto := default (t_asunto t) (d_asunto d);
     t_descripcion := default (t_descripcion t) (d_descripcion d);
     t_estado := default (t_estado t) (d_estado d);
     t_prioridad := t_prioridad t;
     t_horasReales :=
       match d_horasReales d with
       | None => t_horasReales t
       | Some u => aplicarFloat u (t_horasReales t)
       end;
     t_fechaResolucion := default (t_fechaResolucion t) (d_fechaResolucion d);
     t_fechaCierre := default (t_fechaCierre t) (d_fechaCierre d);
     t_creadoEn := t_creadoEn t;
     t_creadorId := t_creadorId t;
     t_agenteId := default (t_agenteId t) (d_agenteId d);
     t_departamentoId := t_departamentoId t;
     t_categoriaId := t_categoriaId t |}.

(** The foreign key of [agenteId]: a non-null value must name a user. *)
Definition agenteReferido (d : TicketUpdateInput) (db : DB) : bool :=
  match d_agenteId d with
  | Some (Some a) => bool_decide (is_Some (usuarios db !! a))
  | _ => true
  end.

(** [ticket.update({ where: { id }, data })]: returns the row as updated. *)
Definition ticket_update (id : Id) (d : TicketUpdateInput) : M Ticket :=
  db <- leer ;;
  match tickets db !! id with
  | None => lanzar P2025
  | Some t =>
      if agenteReferido d db
      then let t' := aplicar d t in
           escribir (con_tickets (<[id := t']> (tickets db)) db) ;; ret t'
      else lanzar P2003
  end.

(** [ticket.updateMany({ where, data })]: returns the number of rows changed.
    [sel] is the [where], read on the key and the row. *)
Definition ticket_updateMany (sel : Id -> Ticket -> bool)
    (d : TicketUpdateInput) : M nat :=
  db <- leer ;;
  if agenteReferido d db
  then escribir (con_tickets
                   (map_imap (fun k t => Some (if sel k t then aplicar d t else t))
                             (tickets db)) db) ;;
       ret (length (List.filter (fun kt => sel kt.1 kt.2)
                                (map_to_list (tickets db))))
  else lanzar P2003.

(** [ticket.create({ data })]: the primary key and [numeroTicket] are unique,
    [creadorId] references a user.  The department and category tables are
    not modelled; their keys are taken to exist. *)
Definition numeroEnUso (n : string) (db : DB) : bool :=
  existsb (fun t => String.eqb (t_numeroTicket t) n) (filas db).

Definition ticket_create (t : Ticket) : M Ticket :=
  db <- leer ;;
  if bool_decide (is_Some (tickets db !! t_id t)) || numeroEnUso (t_numeroTicket t) db
  then lanzar P2002
  else if bool_decide (is_Some (usuarios db !! t_creadorId t))
  then escribir (con_tickets (<[t_id t := t]> (tickets db)) db) ;; ret t
  else lanzar P2003.

(** [ticket.findFirst({ where: { numeroTicket: { startsWith } },
    orderBy: { numeroTicket: 'desc' } })] *)
Definition ticket_findFirst_numero (prefijo : string) : M (option Ticket) :=
  db <- leer ;;
  ret (head (ordenar (fun a b => String.leb (t_numeroTicket b) (t_numeroTicket a))
                     (List.filter (fun t => String.prefix prefijo (t_numeroTicket t))
                                  (filas db)))).

(** [historialEstado.create({ data })]: [ticketId] references a ticket. *)
Definition historialEstado_create (h : HistorialEstado) : M unit :=
  db <- leer ;;
  if bool_decide (is_Some (tickets db !! h_ticketId h))
  then escribir (con_historial (historialEstados db ++ [h]) db)
  else lanzar P2003.

(** [historialEstado.findMany({ where: { ticketId }, orderBy: { cambiadoEn } })] *)
Definition historialDe (id : Id) (db : DB) : list HistorialEstado :=
  List.filter (fun h => String.eqb (h_ticketId h) id) (historialEstados db).

(** [registroTrabajo.create({ data })]: [ticketId] and [agenteId] are foreign keys. *)
Definition registroTrabajo_create (r : RegistroTrabajo) : M RegistroTrabajo :=
  db <- leer ;;
  if bool_decide (is_Some (tickets db !! r_ticketId r))
     && bool_decide (is_Some (usuarios db !! r_agenteId r))
  then escribir (con_registros (registrosTrabajo db ++ [r]) db) ;; ret r
  else lanzar P2003.

Definition registrosDe (id : Id) (db : DB) : list RegistroTrabajo :=
  List.filter (fun r => String.eqb (r_ticketId r) id) (registrosTrabajo db).

(** [comentario.findUnique({ where: { id } })] *)
Definition comentario_findUnique (id : Id) : M (option Comentario) :=
  db <- leer ;;
  ret (List.find (fun c => String.eqb (c_id c) id) (comentarios db)).

(** [comentario.create({ data })]: unique key, and [ticketId] and [autorId]
    are foreign keys. *)
Definition comentario_create (c : Comentario) : M Comentario :=
  db <- leer ;;
  if bool_decide (is_Some (List.find (fun x => String.eqb (c_id x) (c_id c))
                                     (comentarios db)))
  then lanzar P2002
  else if bool_decide (is_Some (tickets db !! c_ticketId c))
          && bool_decide (is_Some (usuarios db !! c_autorId c))
  then escribir (con_comentarios (comentarios db ++ [c]) db) ;; ret c
  else lanzar P2003.

Definition comentariosDe (id : Id) (db : DB) : list Comentario :=
  List.filter (fun c => String.eqb (c_ticketId c) id) (comentarios db).

(** [usuario.findFirst({ where: { id, rol: { in: roles }, estaActivo: true } })] *)
Definition usuario_findFirst_activo (id : Id) (roles : list RolUsuario)
  : M (option Usuario) :=
  db <- leer ;;
  ret (match usuarios db !! id with
       | Some u => if bool_decide (u_rol u ∈ roles) && u_estaActivo u
                   then Some u else None
       | None => None
       end).

End Prisma.
Export Prisma.

(** ** Requests, answers and middleware (middleware/auth.js) *)

Module Http.

(** The JSON bodies the handlers send.  Of an error body the [error] field is
    kept. *)
Inductive Cuerpo :=
| JError (error : string)
| JTicket (ticket : Ticket)
| JDetalle (ticket : Ticket) (comentarios : list Comentario)
           (registrosTrabajo : list RegistroTrabajo)
           (historialEstados : list HistorialEstado)
| JLista (tickets : list Ticket) (page limit total totalPages : nat)
| JComentario (comentario : Comentario)
| JRegistro (registro : RegistroTrabajo)
| JHistorial (historial : list HistorialEstado)
| JActualizados (ticketsActualizados : nat)
| JMensaje (message : string).

Record Respuesta := { status : nat; cuerpo : Cuerpo }.

Definition json (codigo : nat) (c : Cuerpo) : Respuesta :=
  {| status := codigo; cuerpo := c |}.

Definition errorInterno : Respuesta := json 500 (JError "Error interno").

(** A handler: [try { body } catch (error) { res.status(500)... }]. *)
Definition manejador (cuerpoTry : M Respuesta) : DB -> Respuesta * DB :=
  fun db => match cuerpoTry db with
            | (Ok r, db') => (r, db')
            | (Lanza _, db') => (errorInterno, db')
            end.

(** Reading a property of a value that may be [null]. *)
Definition propiedad {A B} (f : A -> B) (o : option A) : M B :=
  match o with
  | Some a => ret (f a)
  | None => lanzar TypeError
  end.

(** A middleware either calls [next()] or answers. *)
Inductive Paso :=
| Siguiente
| Responde (r : Respuesta).

Definition accesoDenegado : Respuesta := json 403 (JError "Acceso denegado").

(** [authorize(rolesPermitidos)], after [authenticate] has set [req.usuario]. *)
Definition authorize (rolesPermitidos : list RolUsuario) (usuario : Usuario) : Paso :=
  if bool_decide (u_rol usuario ∈ rolesPermitidos)
  then Siguiente
  else Responde accesoDenegado.

(** [verifyOwnership(resourceType)].  The role tests come before the test
    that the row exists, and read its columns. *)
Definition verifyOwnership (resourceType : string) (usuario : Usuario) (id : Id)
  : DB -> Paso :=
  fun db =>
  let cuerpoTry : M Paso :=
    if String.eqb resourceType "ticket" then
      resource <- ticket_findUnique id ;;
      denegado <-
        match u_rol usuario with
        | ADMIN => ret false
        | JEFE_DEPARTAMENTO =>
            departamentoId <- propiedad t_departamentoId resource ;;
            ret (negb (bool_decide (Some departamentoId = u_departamentoId usuario)))
        | AGENTE =>
            agenteId <- propiedad t_agenteId resource ;;
            ret (negb (bool_decide (agenteId = Some (u_id usuario))))
        | CLIENTE =>
            creadorId <- propiedad t_creadorId resource ;;
            ret (negb (bool_decide (creadorId = u_id usuario)))
        end ;;
      if denegado : bool then ret (Responde accesoDenegado)
      else match resource with
           | None => ret (Responde (json 404 (JError "Recurso no encontrado")))
           | Some _ => ret Siguiente
           end
    else ret (Responde (json 400 (JError "Tipo de recurso no válido")))
  in
  match cuerpoTry db with
  | (Ok p, _) => p
  | (Lanza _, _) => Responde errorInterno
  end.

(** Chaining a middleware before the rest of a route. *)
Definition tras (p : Paso) (resto : DB -> Respuesta * DB) : DB -> Respuesta * DB :=
  fun db => match p with
            | Siguiente => resto db
            | Responde r => (r, db)
            end.

End Http.
Export Http.

(** ** utils/helpers.js *)

Module Helpers.

(** [s.padStart(n, '0')] *)
Definition padStart0 (n : nat) (s : string) : string :=
  String.concat "" (replicate (n - String.length s) "0") ++ s.

(** [s.split('-')] *)
Fixpoint split_guion_desde (actual : string) (s : string) : list string :=
  match s with
  | EmptyString => [actual]
  | String c s' =>
      if Ascii.eqb c "-"%char
      then actual :: split_guion_desde "" s'
      else split_guion_desde (actual ++ String c "") s'
  end.

Definition split_guion (s : string) : list string := split_guion_desde "" s.

Definition digito (c : ascii) : option N :=
  let n := N_of_ascii c in
  if ((48 <=? n) && (n <=? 57))%N then Some (n - 48)%N else None.

(** [parseInt(s)] on the strings it receives here: the longest run of
    decimal digits at the start of [s]; [None] is [NaN] (no digit, or
    [undefined]).  Leading blanks, a sign and a [0x] prefix, which the
    builtin also accepts, are not modelled. *)
Fixpoint parseInt_desde (acc : option N) (s : string) : option N :=
  match s with
  | EmptyString => acc
  | String c s' =>
      match digito c with
      | Some d => parseInt_desde (Some (10 * default 0 acc + d)%N) s'
      | None => acc
      end
  end.

Definition parseInt (s : option string) : option N :=
  s ≫= parseInt_desde None.

(** [String(x)] of a number; [None] is [NaN]. *)
Definition String_de (x : option N) : string :=
  match x with
  | Some n => pretty n
  | None => "NaN"
  end.

(** [s.slice(-6)] *)
Definition slice_ultimos6 (s : string) : string :=
  String.substring (String.length s - 6) 6 s.

(** [generateTicketNumber()], called at instant [now]. *)
Definition generateTicketNumber (now : Date) : M string :=
  atrapar (
    let year := pretty (getFullYear now) in
    let month := padStart0 2 (pretty (getMonth now + 1)%N) in
    let prefix := year ++ "-" ++ month ++ "-" in
    ultimoTicket <- ticket_findFirst_numero prefix ;;
    let siguiente :=
      match ultimoTicket with
      | None => Some 1%N
      | Some t =>
          let ultimoNumero := split_guion (t_numeroTicket t) !! 2%nat in
          (fun n => n + 1)%N <$> parseInt ultimoNumero
      end in
    let numeroSecuencial := padStart0 6 (String_de siguiente) in
    ret (prefix ++ numeroSecuencial))
  (fun _ =>
    let timestamp := slice_ultimos6 (pretty (getTime now)) in
    ret ("TEMP-" ++ timestamp)).

End Helpers.
Export Helpers.

(** ** controllers/ticketController.js *)

Module TicketController.

(** The validated body of [POST /api/tickets]. *)
Record CrearTicketBody := {
  b_asunto : string;
  b_descripcion : string;
  b_prioridad : option PrioridadTicket;
  b_departamentoId : Id;
  b_categoriaId : Id
}.

(** The requests that the server handles between two [await]s of one
    handler, as a change of the store. *)
Definition entretanto (otras : DB -> DB) : M unit :=
  fun db => (Ok tt, otras db).

(** No other request in between. *)
Definition sola : DB -> DB := fun db => db.

(** [crearTicket].  [validationResult(req)] is empty here, the validators of
    the route having answered 400 otherwise.  [uuid] is the key that [@default(uuid())] draws for the
    row; [otras] is what other requests do to the store between the number
    lookup and the insert ([sola] when the request runs alone). *)
Definition crearTicket (otras : DB -> DB) (ahora : Date) (uuid : Id)
    (usuario : Usuario) (body : CrearTicketBody) : DB -> Respuesta * DB :=
  manejador (
    numeroTicket <- generateTicketNumber ahora ;;
    entretanto otras ;;
    ticket <- ticket_create
      {| t_id := uuid;
         t_numeroTicket := numeroTicket;
         t_asunto := b_asunto body;
         t_descripcion := b_descripcion body;
         t_estado := ABIERTO;
         t_prioridad := default MEDIA (b_prioridad body);
         t_horasReales := None;
         t_fechaResolucion := None;
         t_fechaCierre := None;
         t_creadoEn := ahora;
         t_creadorId := u_id usuario;
         t_agenteId := None;
         t_departamentoId := b_departamentoId body;
         t_categoriaId := b_categoriaId body |} ;;
    historialEstado_create
      {| h_estadoAnterior := None;
         h_estadoNuevo := ABIERTO;
         h_comentario := Some "Ticket creado";
         h_cambiadoEn := ahora;
         h_ticketId := t_id ticket |} ;;
    ret (json 201 (JTicket ticket))).

(** The query string of [GET /api/tickets], after validation. *)
Record Consulta := {
  q_page : option nat;
  q_limit : option nat;
  q_estado : option EstadoTicket;
  q_prioridad : option PrioridadTicket;
  q_departamentoId : option string;
  q_categoriaId : option string;
  q_agenteId : option string;
  q_buscar : option string
}.

Definition sinFiltros : Consulta :=
  {| q_page := None; q_limit := None; q_estado := None; q_prioridad := None;
     q_departamentoId := None; q_categoriaId := None; q_agenteId := None;
     q_buscar := None |}.

(** JavaScript truthiness of an optional string: [undefined] and [""] are false. *)
Definition dado (s : option string) : bool :=
  match s with
  | Some x => negb (String.eqb x "")
  | None => false
  end.

(** The [where] object of [obtenerTickets]: the role's filter first, then the
    filters of the query, each assigned over whatever the field held. *)
Definition whereDe (usuario : Usuario) (q : Consulta) : TicketWhereInput :=
  let porRol : TicketWhereInput :=
    {| w_creadorId :=
         if bool_decide (u_rol usuario = CLIENTE) then Some (u_id usuario) else None;
       w_agenteId :=
         if bool_decide (u_rol usuario = AGENTE) then Some (u_id usuario) else None;
       w_departamentoId :=
         if bool_decide (u_rol usuario = JEFE_DEPARTAMENTO)
         then Some (u_departamentoId usuario) else None;
       w_estado := None; w_prioridad := None; w_categoriaId := None;
       w_OR_contains := None |} in
  {| w_creadorId := w_creadorId porRol;
     w_agenteId := if dado (q_agenteId q) then q_agenteId q else w_agenteId porRol;
     w_departamentoId :=
       if dado (q_departamentoId q) then Some (q_departamentoId q)
       else w_departamentoId porRol;
     w_estado := q_estado q;
     w_prioridad := q_prioridad q;
     w_categoriaId := if dado (q_categoriaId q) then q_categoriaId q else None;
     w_OR_contains := if dado (q_buscar q) then q_buscar q else None |}.

(** [Math.ceil(total / limit)] for [limit > 0]. *)
Definition techo_div (total limit : nat) : nat :=
  (total + limit - 1) `div` limit.

(** [obtenerTickets] *)
Definition obtenerTickets (usuario : Usuario) (q : Consulta)
  : DB -> Respuesta * DB :=
  manejador (
    let page := default 1%nat (q_page q) in
    let limit := default 20%nat (q_limit q) in
    let offset := ((page - 1) * limit)%nat in
    let where_ := whereDe usuario q in
    tickets <- ticket_findMany where_ prioridad_creadoEn_desc offset limit ;;
    total <- ticket_count where_ ;;
    ret (json 200 (JLista tickets page limit total (techo_div total limit)))).

(** [obtenerTicketPorId]: the row with its comments, work log and history. *)
Definition obtenerTicketPorId (id : Id) : DB -> Respuesta * DB :=
  manejador (
    ticket <- ticket_findUnique id ;;
    db <- leer ;;
    match ticket with
    | None => ret (json 404 (JError "Ticket no encontrado"))
    | Some t =>
        ret (json 200 (JDetalle t
          (ordenar (fun a b => (getTime (c_creadoEn a) <=? getTime (c_creadoEn b))%N)
                   (comentariosDe id db))
          (ordenar (fun a b => (getTime (r_fechaTrabajo b) <=? getTime (r_fechaTrabajo a))%N)
                   (registrosDe id db))
          (ordenar (fun a b => (getTime (h_cambiadoEn b) <=? getTime (h_cambiadoEn a))%N)
                   (historialDe id db))))
    end).

(** [actualizarTicket]: the request body goes to the store as the [data] of
    the update. *)
Definition actualizarTicket (id : Id) (updateData : TicketUpdateInput)
  : DB -> Respuesta * DB :=
  manejador (
    ticket <- ticket_update id updateData ;;
    ret (json 200 (JTicket ticket))).

(** [asignarTicket] *)
Definition asignarTicket (ahora : Date) (id : Id) (agenteId : Id)
  : DB -> Respuesta * DB :=
  manejador (
    agente <- usuario_findFirst_activo agenteId [AGENTE; JEFE_DEPARTAMENTO] ;;
    match agente with
    | None => ret (json 400 (JError "Agente inválido"))
    | Some agente =>
        ticket <- ticket_update id
          {| d_asunto := None; d_descripcion := None;
             d_estado := Some EN_PROGRESO;
             d_agenteId := Some (Some agenteId);
             d_horasReales := None; d_fechaResolucion := None;
             d_fechaCierre := None |} ;;
        historialEstado_create
          {| h_estadoAnterior :=
               Some (if bool_decide (t_estado ticket = EN_PROGRESO)
                     then ABIERTO else t_estado ticket);
             h_estadoNuevo := EN_PROGRESO;
             h_comentario := Some ("Ticket asignado a " ++ u_nombreCompleto agente);
             h_cambiadoEn := ahora;
             h_ticketId := id |} ;;
        ret (json 200 (JTicket ticket))
    end).

Definition nombreEstado (e : EstadoTicket) : string :=
  match e with
  | ABIERTO => "ABIERTO" | EN_PROGRESO => "EN_PROGRESO" | EN_ESPERA => "EN_ESPERA"
  | RESUELTO => "RESUELTO" | CERRADO => "CERRADO" | CANCELADO => "CANCELADO"
  end.

Definition estadosValidos : list EstadoTicket :=
  [ABIERTO; EN_PROGRESO; EN_ESPERA; RESUELTO; CERRADO; CANCELADO].

(** The member of [estadosValidos] that a string names, if any. *)
Definition estadoValido (s : string) : option EstadoTicket :=
  List.find (fun e => String.eqb (nombreEstado e) s) estadosValidos.

(** [cambiarEstado] *)
Definition cambiarEstado (ahora : Date) (id : Id) (estado : string)
    (comentario : option string) : DB -> Respuesta * DB :=
  manejador (
    match estadoValido estado with
    | None => ret (json 400 (JError "Estado inválido"))
    | Some nuevo =>
        ticketActual <- ticket_findUnique id ;;
        match ticketActual with
        | None => ret (json 404 (JError "Ticket no encontrado"))
        | Some ticketActual =>
            let updateData :=
              {| d_asunto := None; d_descripcion := None;
                 d_estado := Some nuevo;
                 d_agenteId := None; d_horasReales := None;
                 d_fechaResolucion :=
                   if bool_decide (nuevo = RESUELTO) then Some (Some ahora) else None;
                 d_fechaCierre :=
                   if bool_decide (nuevo = CERRADO) then Some (Some ahora) else None |} in
            ticket <- ticket_update id updateData ;;
            historialEstado_create
              {| h_estadoAnterior := Some (t_estado ticketActual);
                 h_estadoNuevo := nuevo;
                 h_comentario :=
                   Some (if dado comentario then default "" comentario
                         else "Estado cambiado a " ++ estado);
                 h_cambiadoEn := ahora;
                 h_ticketId := id |} ;;
            ret (json 200 (JTicket ticket))
        end
    end).

(** [agregarRegistroTrabajo]; [horas] is the body's [horas] after
    [parseFloat]. *)
Definition agregarRegistroTrabajo (ahora : Date) (usuario : Usuario) (id : Id)
    (descripcion : string) (horas : float) (fechaTrabajo : option Date)
  : DB -> Respuesta * DB :=
  manejador (
    registro <- registroTrabajo_create
      {| r_descripcion := descripcion;
         r_horas := horas;
         r_fechaTrabajo := default ahora fechaTrabajo;
         r_agenteId := u_id usuario;
         r_ticketId := id |} ;;
    ticket_update id
      {| d_asunto := None; d_descripcion := None; d_estado := None;
         d_agenteId := None;
         d_horasReales := Some (FIncrement horas);
         d_fechaResolucion := None; d_fechaCierre := None |} ;;
    ret (json 201 (JRegistro registro))).

(** [obtenerHistorial] *)
Definition obtenerHistorial (id : Id) : DB -> Respuesta * DB :=
  manejador (
    db <- leer ;;
    ret (json 200 (JHistorial
      (ordenar (fun a b => (getTime (h_cambiadoEn b) <=? getTime (h_cambiadoEn a))%N)
               (historialDe id db))))).

(** [reabrirTicket] *)
Definition reabrirTicket (ahora : Date) (usuario : Usuario) (id : Id)
  : DB -> Respuesta * DB :=
  manejador (
    ticket <- ticket_update id
      {| d_asunto := None; d_descripcion := None;
         d_estado := Some ABIERTO;
         d_agenteId := None; d_horasReales := None;
         d_fechaResolucion := Some None;
         d_fechaCierre := Some None |} ;;
    historialEstado_create
      {| h_estadoAnterior := Some CERRADO;
         h_estadoNuevo := ABIERTO;
         h_comentario := Some ("Ticket reabierto por " ++ u_nombreCompleto usuario);
         h_cambiadoEn := ahora;
         h_ticketId := id |} ;;
    ret (json 200 (JTicket ticket))).

(** [asignacionMasiva] *)
Definition asignacionMasiva (ticketIds : list Id) (agenteId : Id)
  : DB -> Respuesta * DB :=
  manejador (
    agente <- usuario_findFirst_activo agenteId [AGENTE; JEFE_DEPARTAMENTO] ;;
    match agente with
    | None => ret (json 400 (JError "Agente inválido"))
    | Some _ =>
        count <- ticket_updateMany
          (fun k t => bool_decide (k ∈ ticketIds)
                      && bool_decide (t_estado t ∈ [ABIERTO; EN_PROGRESO]))
          {| d_asunto := None; d_descripcion := None;
             d_estado := Some EN_PROGRESO;
             d_agenteId := Some (Some agenteId);
             d_horasReales := None; d_fechaResolucion := None;
             d_fechaCierre := None |} ;;
        ret (json 200 (JActualizados count))
    end).

(** [cambioEstadoMasivo]; the route's validators admit only the six states. *)
Definition cambioEstadoMasivo (ahora : Date) (ticketIds : list Id)
    (estado : EstadoTicket) : DB -> Respuesta * DB :=
  manejador (
    let updateData :=
      {| d_asunto := None; d_descripcion := None;
         d_estado := Some estado;
         d_agenteId := None; d_horasReales := None;
         d_fechaResolucion :=
           if bool_decide (estado = RESUELTO) then Some (Some ahora) else None;
         d_fechaCierre :=
           if bool_decide (estado = CERRADO) then Some (Some ahora) else None |} in
    count <- ticket_updateMany (fun k _ => bool_decide (k ∈ ticketIds)) updateData ;;
    ret (json 200 (JActualizados count))).

End TicketController.
Export TicketController.

(** ** controllers/comentarioController.js *)

Module ComentarioController.

(** [obtenerComentarioPorId]: the comment comes with the ticket it belongs
    to.  The [||] chain of [tieneAcceso] reads the ticket's columns only in
    the disjunct of the user's own role. *)
Definition obtenerComentarioPorId (usuario : Usuario) (id : Id)
  : DB -> Respuesta * DB :=
  manejador (
    comentario <- comentario_findUnique id ;;
    match comentario with
    | None => ret (json 404 (JError "Comentario no encontrado"))
    | Some comentario =>
        ticket <- ticket_findUnique (c_ticketId comentario) ;;
        tieneAcceso <-
          match u_rol usuario with
          | ADMIN => ret true
          | JEFE_DEPARTAMENTO =>
              departamentoId <- propiedad t_departamentoId ticket ;;
              ret (bool_decide (Some departamentoId = u_departamentoId usuario))
          | AGENTE =>
              agenteId <- propiedad t_agenteId ticket ;;
              ret (bool_decide (agenteId = Some (u_id usuario)))
          | CLIENTE =>
              creadorId <- propiedad t_creadorId ticket ;;
              ret (bool_decide (creadorId = u_id usuario)
                   && negb (c_esInterno comentario))
          end ;;
        if tieneAcceso : bool then ret (json 200 (JComentario comentario))
        else ret (json 403 (JError "Acceso denegado"))
    end).

(** [crearComentario]; [uuid] is the key drawn for the row, [esInterno] is
    [false] when the body leaves it out. *)
Definition crearComentario (ahora : Date) (uuid : Id) (usuario : Usuario)
    (ticketId : Id) (contenido : string) (esInterno : option bool)
  : DB -> Respuesta * DB :=
  manejador (
    ticket <- ticket_findUnique ticketId ;;
    match ticket with
    | None => ret (json 404 (JError "Ticket no encontrado"))
    | Some _ =>
        comentario <- comentario_create
          {| c_id := uuid; c_contenido := contenido;
             c_esInterno := default false esInterno;
             c_creadoEn := ahora; c_autorId := u_id usuario;
             c_ticketId := ticketId |} ;;
        ret (json 201 (JComentario comentario))
    end).

End ComentarioController.
Export ComentarioController.

(** ** routes/tickets.js and routes/comentarios.js

    Every route runs behind [authenticate], which supplies [usuario].  Of the
    validators (middleware/validation.js) the tests on lengths, ranges and
    enumerations are modelled; identifiers are taken to be well-formed UUIDs,
    and the [trim] sanitizers, which only change the text stored, are left
    out. *)

Module Rutas.

Definition datosInvalidos : Respuesta := json 400 (JError "Datos inválidos").

(** [handleValidationErrors] after validators whose conjunction is [valido]. *)
Definition validar (valido : bool) : Paso :=
  if valido then Siguiente else Responde datosInvalidos.

Definition longitudEntre (min max : nat) (s : string) : bool :=
  (min <=? String.length s)%nat && (String.length s <=? max)%nat.

Definition opcional {A} (p : A -> bool) (o : option A) : bool :=
  match o with
  | Some a => p a
  | None => true
  end.

Definition ADMIN_O_JEFE : list RolUsuario := [ADMIN; JEFE_DEPARTAMENTO].

(** [GET /api/tickets] *)
Definition get_tickets (usuario : Usuario) (q : Consulta) : DB -> Respuesta * DB :=
  tras (validar (opcional (longitudEntre 1 100) (q_buscar q)
                 && opcional (fun p => (1 <=? p)%nat) (q_page q)
                 && opcional (fun l => (1 <=? l)%nat && (l <=? 100)%nat) (q_limit q)))
       (obtenerTickets usuario q).

(** [POST /api/tickets] *)
Definition post_tickets (otras : DB -> DB) (ahora : Date) (uuid : Id)
    (usuario : Usuario) (body : CrearTicketBody) : DB -> Respuesta * DB :=
  tras (validar (longitudEntre 5 200 (b_asunto body)
                 && longitudEntre 10 2000 (b_descripcion body)))
       (crearTicket otras ahora uuid usuario body).

(** [POST /api/tickets/bulk/assign] *)
Definition post_bulk_assign (usuario : Usuario) (ticketIds : list Id) (agenteId : Id)
  : DB -> Respuesta * DB :=
  tras (validar (1 <=? length ticketIds)%nat) (fun db =>
  tras (authorize ADMIN_O_JEFE usuario)
       (asignacionMasiva ticketIds agenteId) db).

(** [POST /api/tickets/bulk/status] *)
Definition post_bulk_status (ahora : Date) (usuario : Usuario)
    (ticketIds : list Id) (estado : EstadoTicket) : DB -> Respuesta * DB :=
  tras (validar (1 <=? length ticketIds)%nat) (fun db =>
  tras (authorize ADMIN_O_JEFE usuario)
       (cambioEstadoMasivo ahora ticketIds estado) db).

(** [GET /api/tickets/:id] *)
Definition get_ticket (usuario : Usuario) (id : Id) : DB -> Respuesta * DB :=
  fun db => tras (verifyOwnership "ticket" usuario id db) (obtenerTicketPorId id) db.

(** [PUT /api/tickets/:id] *)
Definition put_ticket (usuario : Usuario) (id : Id) (body : TicketUpdateInput)
  : DB -> Respuesta * DB :=
  tras (validar (opcional (longitudEntre 5 200) (d_asunto body)
                 && opcional (longitudEntre 10 2000) (d_descripcion body))) (fun db =>
  tras (authorize ADMIN_O_JEFE usuario) (fun db =>
  tras (verifyOwnership "ticket" usuario id db)
       (actualizarTicket id body) db) db).

(** [PATCH /api/tickets/:id/asignar] *)
Definition patch_asignar (ahora : Date) (usuario : Usuario) (id : Id) (agenteId : Id)
  : DB -> Respuesta * DB :=
  tras (authorize ADMIN_O_JEFE usuario) (asignarTicket ahora id agenteId).

(** [PATCH /api/tickets/:id/estado] *)
Definition patch_estado (ahora : Date) (usuario : Usuario) (id : Id)
    (estado : string) (comentario : option string) : DB -> Respuesta * DB :=
  tras (validar (bool_decide (is_Some (estadoValido estado))
                 && opcional (longitudEntre 0 500) comentario)) (fun db =>
  tras (verifyOwnership "ticket" usuario id db)
       (cambiarEstado ahora id estado comentario) db).

(** Thirty days, in milliseconds. *)
Definition treintaDias : N := 30 * 24 * 60 * 60 * 1000.

(** [POST /api/tickets/:id/trabajo] *)
Definition post_trabajo (ahora : Date) (usuario : Usuario) (id : Id)
    (descripcion : string) (horas : float) (fechaTrabajo : option Date)
  : DB -> Respuesta * DB :=
  tras (validar (longitudEntre 10 1000 descripcion
                 && (0x1.999999999999ap-4 <=? horas)%float && (horas <=? 24)%float
                 && opcional (fun f => (getTime f <=? getTime ahora)%N
                                       && (getTime ahora - treintaDias <=? getTime f)%N)
                             fechaTrabajo)) (fun db =>
  tras (authorize [AGENTE; JEFE_DEPARTAMENTO] usuario) (fun db =>
  tras (verifyOwnership "ticket" usuario id db)
       (agregarRegistroTrabajo ahora usuario id descripcion horas fechaTrabajo) db) db).

(** [POST /api/tickets/:id/comentarios] *)
Definition post_comentarios (ahora : Date) (uuid : Id) (usuario : Usuario) (id : Id)
    (contenido : string) (esInterno : option bool) : DB -> Respuesta * DB :=
  tras (validar (longitudEntre 1 2000 contenido)) (fun db =>
  tras (verifyOwnership "ticket" usuario id db)
       (crearComentario ahora uuid usuario id contenido esInterno) db).

(** [GET /api/tickets/:id/historial] *)
Definition get_historial (usuario : Usuario) (id : Id) : DB -> Respuesta * DB :=
  fun db => tras (verifyOwnership "ticket" usuario id db) (obtenerHistorial id) db.

(** [POST /api/tickets/:id/reabrir] *)
Definition post_reabrir (ahora : Date) (usuario : Usuario) (id : Id)
  : DB -> Respuesta * DB :=
  tras (authorize ADMIN_O_JEFE usuario) (fun db =>
  tras (verifyOwnership "ticket" usuario id db)
       (reabrirTicket ahora usuario id) db).

(** [GET /api/comentarios/:id] *)
Definition get_comentario (usuario : Usuario) (id : Id) : DB -> Respuesta * DB :=
  obtenerComentarioPorId usuario id.

End Rutas.
Export Rutas.

(** ** The properties, as the specification words them *)

Module Especificacion.

(** Scope of an actor over a ticket (section 4.2): ADMIN is unconstrained; a
    department head sees the tickets of the own department; an agent the
    tickets assigned to the agent; a client the tickets the client created. *)
Definition scopeFor (actor : Usuario) (t : Ticket) : bool :=
  match u_rol actor with
  | ADMIN => true
  | JEFE_DEPARTAMENTO => bool_decide (Some (t_departamentoId t) = u_departamentoId actor)
  | AGENTE => bool_decide (t_agenteId t = Some (u_id actor))
  | CLIENTE => bool_decide (t_creadorId t = u_id actor)
  end.

(** The [data] of an assignment, and a [data] that sets the assignee only. *)
Definition asignacion (agenteId : Id) : TicketUpdateInput :=
  {| d_asunto := None; d_descripcion := None; d_estado := Some EN_PROGRESO;
     d_agenteId := Some (Some agenteId); d_horasReales := None;
     d_fechaResolucion := None; d_fechaCierre := None |}.

Definition soloAgente (agenteId : Id) : TicketUpdateInput :=
  {| d_asunto := None; d_descripcion := None; d_estado := None;
     d_agenteId := Some (Some agenteId); d_horasReales := None;
     d_fechaResolucion := None; d_fechaCierre := None |}.

(** A connected chain (section 8): each row's previous status is the new
    status of the row before it, and [null] for the first. *)
Fixpoint encadenado (previo : option EstadoTicket) (l : list HistorialEstado) : bool :=
  match l with
  | [] => true
  | h :: l' => bool_decide (h_estadoAnterior h = previo)
               && encadenado (Some (h_estadoNuevo h)) l'
  end.

(** The history rows of a ticket, ordered by timestamp, form a chain. *)
Definition cadenaConectada (id : Id) (db : DB) : bool :=
  encadenado None
    (ordenar (fun a b => (getTime (h_cambiadoEn a) <=? getTime (h_cambiadoEn b))%N)
             (historialDe id db)).

(** The sum of the hours of a ticket's work-log rows, in insertion order. *)
Definition horasRegistradas (id : Id) (db : DB) : float :=
  foldl (fun s r => (s + r_horas r)%float) 0%float (registrosDe id db).

(** The ledger invariant (section 8): [horasReales], with NULL read as no
    hours, is that sum. *)
Definition libroCuadrado (id : Id) (db : DB) : Prop :=
  forall t, tickets db !! id = Some t ->
            default 0%float (t_horasReales t) = horasRegistradas id db.

(** Ticket creation with the retry of section 7: a uniqueness conflict on
    the insert makes the handler regenerate the number and insert once more;
    a second conflict is answered as Conflict (409). *)
Definition crearTicket_con_reintento (otras : DB -> DB) (ahora : Date) (uuid : Id)
    (usuario : Usuario) (body : CrearTicketBody) : DB -> Respuesta * DB :=
  let fila (numeroTicket : string) : Ticket :=
    {| t_id := uuid; t_numeroTicket := numeroTicket;
       t_asunto := b_asunto body; t_descripcion := b_descripcion body;
       t_estado := ABIERTO; t_prioridad := default MEDIA (b_prioridad body);
       t_horasReales := None; t_fechaResolucion := None; t_fechaCierre := None;
       t_creadoEn := ahora; t_creadorId := u_id usuario; t_agenteId := None;
       t_departamentoId := b_departamentoId body;
       t_categoriaId := b_categoriaId body |} in
  let soloConflicto {A} (e : Excepcion) (m : M A) : M A :=
    match e with
    | P2002 => m
    | _ => lanzar e
    end in
  manejador (
    atrapar (
      numeroTicket <- generateTicketNumber ahora ;;
      entretanto otras ;;
      ticket <- atrapar (ticket_create (fila numeroTicket))
                  (fun e => soloConflicto e (
                     regenerado <- generateTicketNumber ahora ;;
                     ticket_create (fila regenerado))) ;;
      historialEstado_create
        {| h_estadoAnterior := None; h_estadoNuevo := ABIERTO;
           h_comentario := Some "Ticket creado"; h_cambiadoEn := ahora;
           h_ticketId := t_id ticket |} ;;
      ret (json 201 (JTicket ticket)))
    (fun e => soloConflicto e (ret (json 409 (JError "Conflict"))))).

End Especificacion.
Export Especificacion.

(** ** A small installation, for the concrete runs below *)

Module Escenario.

Definition fecha (t : N) : Date :=
  {| getFullYear := 2026; getMonth := 10; getTime := t |}.

(** Keys of the rows used below. *)
Definition idAdmin : Id := "11111111-1111-4111-8111-111111111111".
Definition idJefe : Id := "22222222-2222-4222-8222-222222222222".
Definition idAna : Id := "33333333-3333-4333-8333-333333333333".
Definition idLuis : Id := "44444444-4444-4444-8444-444444444444".
Definition idCliente : Id := "55555555-5555-4555-8555-555555555555".
Definition soporte : Id := "66666666-6666-4666-8666-666666666666".
Definition hardware : Id := "77777777-7777-4777-8777-777777777777".
Definition t1 : Id := "aaaaaaaa-aaaa-4aaa-8aaa-aaaaaaaaaaa1".
Definition t2 : Id := "aaaaaaaa-aaaa-4aaa-8aaa-aaaaaaaaaaa2".
Definition t3 : Id := "aaaaaaaa-aaaa-4aaa-8aaa-aaaaaaaaaaa3".
Definition tAusente : Id := "aaaaaaaa-aaaa-4aaa-8aaa-aaaaaaaaaaa9".
Definition c1 : Id := "cccccccc-cccc-4ccc-8ccc-ccccccccccc1".

Definition persona (id : Id) (nombre : string) (rol : RolUsuario)
    (departamento : option Id) : Usuario :=
  {| u_id := id; u_email := nombre ++ "@helpdesk.example";
     u_nombreCompleto := nombre; u_rol := rol; u_estaActivo := true;
     u_departamentoId := departamento |}.

Definition admin : Usuario := persona idAdmin "admin" ADMIN None.
Definition jefe : Usuario := persona idJefe "jefe" JEFE_DEPARTAMENTO (Some soporte).
Definition ana : Usuario := persona idAna "ana" AGENTE (Some soporte).
Definition luis : Usuario := persona idLuis "luis" AGENTE (Some soporte).
Definition cliente : Usuario := persona idCliente "cliente" CLIENTE None.

(** Five users, no ticket yet. *)
Definition vacia : DB :=
  {| usuarios := list_to_map [(idAdmin, admin); (idJefe, jefe); (idAna, ana);
                              (idLuis, luis); (idCliente, cliente)];
     tickets := ∅; comentarios := []; historialEstados := [];
     registrosTrabajo := [] |}.

Definition impresora : CrearTicketBody :=
  {| b_asunto := "Impresora del piso 3";
     b_descripcion := "La impresora no responde y muestra error";
     b_prioridad := None; b_departamentoId := soporte;
     b_categoriaId := hardware |}.

Definition monitor : CrearTicketBody :=
  {| b_asunto := "Monitor sin imagen";
     b_descripcion := "El monitor de recepcion no enciende";
     b_prioridad := Some ALTA; b_departamentoId := soporte;
     b_categoriaId := hardware |}.

(** The client opens ticket [t1]... *)
Definition creado : DB := (post_tickets sola (fecha 1) t1 cliente impresora vacia).2.

(** ... and the department head assigns it to Ana. *)
Definition asignado : DB := (patch_asignar (fecha 2) jefe t1 idAna creado).2.

(** The row of [t1] at that point. *)
Definition t1_de_ana : Ticket :=
  {| t_id := t1; t_numeroTicket := "2026-11-000001";
     t_asunto := "Impresora del piso 3";
     t_descripcion := "La impresora no responde y muestra error";
     t_estado := EN_PROGRESO; t_prioridad := MEDIA; t_horasReales := None;
     t_fechaResolucion := None; t_fechaCierre := None; t_creadoEn := fecha 1;
     t_creadorId := idCliente; t_agenteId := Some idAna;
     t_departamentoId := soporte; t_categoriaId := hardware |}.

(** The head reassigns [t1], already in progress, to Luis. *)
Definition reasignado : DB := (patch_asignar (fecha 3) jefe t1 idLuis asignado).2.

(** The ADMIN closes [t1]. *)
Definition cerrado : DB :=
  (patch_estado (fecha 3) admin t1 "CERRADO" None asignado).2.

(** Ana leaves an internal note on [t1]. *)
Definition notaInterna : Comentario :=
  {| c_id := c1; c_contenido := "El cliente ya reclamo dos veces";
     c_esInterno := true; c_creadoEn := fecha 3; c_autorId := idAna;
     c_ticketId := t1 |}.

Definition anotado : DB :=
  (post_comentarios (fecha 3) c1 ana t1 "El cliente ya reclamo dos veces"
     (Some true) asignado).2.

(** A query that filters by assignee only. *)
Definition delAgente (a : Id) : Consulta :=
  {| q_page := None; q_limit := None; q_estado := None; q_prioridad := None;
     q_departamentoId := None; q_categoriaId := None; q_agenteId := Some a;
     q_buscar := None |}.

(** Another client request, [POST /api/tickets], served completely while the
    request under study waits for its number lookup to return. *)
Definition otraAlta (db : DB) : DB :=
  (post_tickets sola (fecha 3) t2 cliente monitor db).2.

(** A month in which 999999 tickets were numbered: the store holds the last
    of them. *)
Definition repleto : DB :=
  {| usuarios := usuarios vacia;
     tickets := {[ t1 := {| t_id := t1; t_numeroTicket := "2026-11-999999";
                            t_asunto := "Impresora del piso 3";
                            t_descripcion := "La impresora no responde y muestra error";
                            t_estado := ABIERTO; t_prioridad := MEDIA;
                            t_horasReales := None; t_fechaResolucion := None;
                            t_fechaCierre := None; t_creadoEn := fecha 1;
                            t_creadorId := idCliente; t_agenteId := None;
                            t_departamentoId := soporte;
                            t_categoriaId := hardware |} ]};
     comentarios := []; historialEstados := []; registrosTrabajo := [] |}.

(** Generic updates that touch one column. *)
Definition soloEstado (e : EstadoTicket) : TicketUpdateInput :=
  {| d_asunto := None; d_descripcion := None; d_estado := Some e;
     d_agenteId := None; d_horasReales := None; d_fechaResolucion := None;
     d_fechaCierre := None |}.

Definition soloHoras (h : float) : TicketUpdateInput :=
  {| d_asunto := None; d_descripcion := None; d_estado := None;
     d_agenteId := None; d_horasReales := Some (FSet (Some h));
     d_fechaResolucion := None; d_fechaCierre := None |}.

End Escenario.

(** ** Further Prisma calls *)

Module PrismaMas.

(** [comentario.update({ where: { id }, data: { contenido, actualizadoEn } })];
    of the two columns written, [contenido] is modelled. *)
Definition comentario_update (id : Id) (contenido : string) : M Comentario :=
  db <- leer ;;
  match List.find (fun c => String.eqb (c_id c) id) (comentarios db) with
  | None => lanzar P2025
  | Some actual =>
      let nuevo := {| c_id := c_id actual; c_contenido := contenido;
                      c_esInterno := c_esInterno actual;
                      c_creadoEn := c_creadoEn actual;
                      c_autorId := c_autorId actual;
                      c_ticketId := c_ticketId actual |} in
      escribir (con_comentarios
                  (List.map (fun c => if String.eqb (c_id c) id then nuevo else c)
                            (comentarios db)) db) ;;
      ret nuevo
  end.

(** [comentario.delete({ where: { id } })] *)
Definition comentario_delete (id : Id) : M unit :=
  db <- leer ;;
  match List.find (fun c => String.eqb (c_id c) id) (comentarios db) with
  | None => lanzar P2025
  | Some _ =>
      escribir (con_comentarios
                  (List.filter (fun c => negb (String.eqb (c_id c) id))
                               (comentarios db)) db)
  end.

(** [ticket.delete({ where: { id } })].  The foreign keys of the comments,
    the history and the work log on [ticketId] are [ON DELETE CASCADE]. *)
Definition ticket_delete (id : Id) : M Ticket :=
  db <- leer ;;
  match tickets db !! id with
  | None => lanzar P2025
  | Some t =>
      escribir
        {| usuarios := usuarios db;
           tickets := delete id (tickets db);
           comentarios :=
             List.filter (fun c => negb (String.eqb (c_ticketId c) id))
                         (comentarios db);
           historialEstados :=
             List.filter (fun h => negb (String.eqb (h_ticketId h) id))
                         (historialEstados db);
           registrosTrabajo :=
             List.filter (fun r => negb (String.eqb (r_ticketId r) id))
                         (registrosTrabajo db) |} ;;
      ret t
  end.

End PrismaMas.
Export PrismaMas.

(** ** controllers/comentarioController.js, the writers *)

Module ComentarioEdicion.

(** Twenty-four hours, in milliseconds: [(now - creadoEn) / (1000 * 60 * 60) > 24]
    holds exactly when the difference of the two instants exceeds it. *)
Definition veinticuatroHoras : N := 24 * 60 * 60 * 1000.

(** [editarComentario].  The log line after the update reads the number of
    the comment's ticket. *)
Definition editarComentario (ahora : Date) (usuario : Usuario) (id : Id)
    (contenido : string) : DB -> Respuesta * DB :=
  manejador (
    comentarioActual <- comentario_findUnique id ;;
    match comentarioActual with
    | None => ret (json 404 (JError "Comentario no encontrado"))
    | Some comentarioActual =>
        let puedeEditar :=
          bool_decide (u_rol usuario = ADMIN)
          || bool_decide (c_autorId comentarioActual = u_id usuario) in
        if negb puedeEditar then ret (json 403 (JError "Acceso denegado"))
        else if (veinticuatroHoras
                   <? getTime ahora - getTime (c_creadoEn comentarioActual))%N
                && negb (bool_decide (u_rol usuario = ADMIN))
        then ret (json 400 (JError "Tiempo excedido"))
        else
          comentario <- comentario_update id contenido ;;
          ticket <- ticket_findUnique (c_ticketId comentarioActual) ;;
          propiedad t_numeroTicket ticket ;;
          ret (json 200 (JComentario comentario))
    end).

(** [eliminarComentario] *)
Definition eliminarComentario (usuario : Usuario) (id : Id) : DB -> Respuesta * DB :=
  manejador (
    comentario <- comentario_findUnique id ;;
    match comentario with
    | None => ret (json 404 (JError "Comentario no encontrado"))
    | Some comentario =>
        if negb (bool_decide (u_rol usuario ∈ [ADMIN; JEFE_DEPARTAMENTO]))
        then ret (json 403 (JError "Acceso denegado"))
        else
          comentario_delete id ;;
          ticket <- ticket_findUnique (c_ticketId comentario) ;;
          propiedad t_numeroTicket ticket ;;
          ret (json 200 (JMensaje "Comentario eliminado exitosamente"))
    end).

End ComentarioEdicion.
Export ComentarioEdicion.

(** ** controllers/ticketController.js, deletion *)

Module TicketBaja.

(** [eliminarTicket] *)
Definition eliminarTicket (id : Id) : DB -> Respuesta * DB :=
  manejador (
    ticket_delete id ;;
    ret (json 200 (JMensaje "Ticket eliminado exitosamente"))).

End TicketBaja.
Export TicketBaja.

(** ** The dashboard's recent tickets *)

Module Dashboard.




End Dashboard.
Export Dashboard.

(** ** services/notificationService.js, who is told of a comment *)

Module Notificaciones.

(** The [destinatarios] of [notificarNuevoComentario(ticket, comentario, autor)]. *)
Definition destinatariosNuevoComentario (ticket : Ticket) (autor : Usuario) : list Id :=
  (if negb (bool_decide (t_creadorId ticket = u_id autor))
   then [t_creadorId ticket] else [])
  ++ match t_agenteId ticket with
     | Some agenteId =>
         if negb (String.eqb agenteId "")
            && negb (bool_decide (agenteId = u_id autor))
         then [agenteId] else []
     | None => []
     end.

(** Whom [crearComentario] has notified: nobody for an internal comment. *)
Definition notificadosPorComentario (ticket : Ticket) (esInterno : option bool)
    (autor : Usuario) : list Id :=
  if negb (default false esInterno)
  then destinatariosNuevoComentario ticket autor
  else [].

End Notificaciones.
Export Notificaciones.

(** ** utils/helpers.js, the text helpers *)

Module Textos.

Definition comillas : ascii := ascii_of_N 34.
Definition apostrofo : ascii := ascii_of_N 39.

(** The [map] of [escapeHtml]; any other character stands for itself. *)
Definition entidad (c : ascii) : string :=
  if Ascii.eqb c "&" then "&amp;"
  else if Ascii.eqb c "<" then "&lt;"
  else if Ascii.eqb c ">" then "&gt;"
  else if Ascii.eqb c comillas then "&quot;"
  else if Ascii.eqb c apostrofo then "&#039;"
  else String c "".

(** [escapeHtml(text)] *)
Fixpoint escapeHtml (text : string) : string :=
  match text with
  | EmptyString => EmptyString
  | String c resto => entidad c ++ escapeHtml resto
  end.


(** [c] is in [a-z0-9.-]. *)
Definition permitido (c : ascii) : bool :=
  let n := N_of_ascii c in
  ((97 <=? n) && (n <=? 122) || (48 <=? n) && (n <=? 57)
   || (n =? 46) || (n =? 45))%N.

(** [.replace(/[^a-z0-9.-]/g, '_')] *)
Fixpoint reemplazarAjenos (s : string) : string :=
  match s with
  | EmptyString => EmptyString
  | String c r => String (if permitido c then c else "_"%char) (reemplazarAjenos r)
  end.

(** [.replace(/_+/g, '_')] *)
Fixpoint colapsar (s : string) : string :=
  match s with
  | EmptyString => EmptyString
  | String c r =>
      if Ascii.eqb c "_"
      then match r with
           | String d _ => if Ascii.eqb d "_" then colapsar r
                           else String c (colapsar r)
           | EmptyString => String c EmptyString
           end
      else String c (colapsar r)
  end.

(** [_$] of the last replacement: a trailing underscore goes. *)
Fixpoint sinGuionFinal (s : string) : string :=
  match s with
  | EmptyString => EmptyString
  | String c EmptyString => if Ascii.eqb c "_" then EmptyString else s
  | String c r => String c (sinGuionFinal r)
  end.

(** [.replace(/^_|_$/g, '')]: the matches are found left to right and do not
    overlap, so a string that is one underscore loses it once. *)
Definition recortarGuiones (s : string) : string :=
  match s with
  | String c r => if Ascii.eqb c "_" then sinGuionFinal r else sinGuionFinal s
  | EmptyString => EmptyString
  end.

(** [sanitizeFilename(filename)], for names in ASCII. *)
Definition sanitizeFilename (filename : string) : string :=
  recortarGuiones (colapsar (reemplazarAjenos (minusculas filename))).

End Textos.
Export Textos.

(** ** middleware/validation.js, the input sanitizer *)

Module Saneamiento.

(** [s.replace(/c/g, por)] for a pattern that is one character. *)
Fixpoint reemplazar (c : ascii) (por : string) (s : string) : string :=
  match s with
  | EmptyString => EmptyString
  | String d r =>
      (if Ascii.eqb d c then por else String d EmptyString) ++ reemplazar c por r
  end.

(** The chain of five [replace] calls that [sanitize] applies to a string,
    the first call innermost. *)
Definition sanitizeString (s : string) : string :=
  reemplazar "/" "&#x2F;"
    (reemplazar apostrofo "&#x27;"
       (reemplazar comillas "&quot;"
          (reemplazar ">" "&gt;"
             (reemplazar "<" "&lt;" s)))).

#[local] Unset Elimination Schemes.


#[local] Set Elimination Schemes.


End Saneamiento.
Export Saneamiento.

(** ** Predicates on texts, for the properties below *)

Module Propiedades.

(** Every character of [s] satisfies [P]. *)
Fixpoint todos (P : ascii -> bool) (s : string) : bool :=
  match s with
  | EmptyString => true
  | String c r => P c && todos P r
  end.

(** The characters that [escapeHtml] replaces save the ampersand. *)
Definition marcado (c : ascii) : bool :=
  Ascii.eqb c "<" || Ascii.eqb c ">" || Ascii.eqb c comillas
  || Ascii.eqb c apostrofo.

(** The characters that [sanitizeInput] replaces. *)
Definition peligroso (c : ascii) : bool :=
  marcado c || Ascii.eqb c "/".

(** One simultaneous pass that replaces each dangerous character by its
    entity, to compare the chain of five passes with. *)
Definition saneado (c : ascii) : string :=
  if Ascii.eqb c "<" then "&lt;"
  else if Ascii.eqb c ">" then "&gt;"
  else if Ascii.eqb c comillas then "&quot;"
  else if Ascii.eqb c apostrofo then "&#x27;"
  else if Ascii.eqb c "/" then "&#x2F;"
  else String c EmptyString.

Fixpoint deUnaPasada (s : string) : string :=
  match s with
  | EmptyString => EmptyString
  | String c r => saneado c ++ deUnaPasada r
  end.


(** No two underscores in a row. *)
Fixpoint sinDobleGuion (s : string) : bool :=
  match s with
  | String c (String d _ as r) =>
      negb (Ascii.eqb c "_" && Ascii.eqb d "_") && sinDobleGuion r
  | _ => true
  end.

Definition empiezaConGuion (s : string) : bool :=
  match s with
  | String c _ => Ascii.eqb c "_"
  | EmptyString => false
  end.

Fixpoint terminaEnGuion (s : string) : bool :=
  match s with
  | EmptyString => false
  | String c EmptyString => Ascii.eqb c "_"
  | String _ r => terminaEnGuion r
  end.



End Propiedades.
Export Propiedades.

(** ** More routes *)

Module RutasMas.

(** [DELETE /api/tickets/:id] *)
Definition delete_ticket (usuario : Usuario) (id : Id) : DB -> Respuesta * DB :=
  tras (authorize [ADMIN] usuario) (eliminarTicket id).

(** [PUT /api/comentarios/:id] *)
Definition put_comentario (ahora : Date) (usuario : Usuario) (id : Id)
    (contenido : string) : DB -> Respuesta * DB :=
  tras (validar (longitudEntre 1 2000 contenido))
       (editarComentario ahora usuario id contenido).

(** [DELETE /api/comentarios/:id] *)
Definition delete_comentario (usuario : Usuario) (id : Id) : DB -> Respuesta * DB :=
  tras (authorize ADMIN_O_JEFE usuario) (eliminarComentario usuario id).

(** [PUT /api/tickets/:id/comentarios/:comentarioId]: the handler reads
    [req.params.id], which on this route is the ticket's. *)
Definition put_ticket_comentario (ahora : Date) (usuario : Usuario)
    (id comentarioId : Id) (contenido : string) : DB -> Respuesta * DB :=
  tras (validar (longitudEntre 1 2000 contenido)) (fun db =>
  tras (authorize ADMIN_O_JEFE usuario)
       (editarComentario ahora usuario id contenido) db).

(** [DELETE /api/tickets/:id/comentarios/:comentarioId], likewise. *)
Definition delete_ticket_comentario (usuario : Usuario) (id comentarioId : Id)
  : DB -> Respuesta * DB :=
  tras (authorize ADMIN_O_JEFE usuario) (eliminarComentario usuario id).

End RutasMas.
Export RutasMas.

(** Unfolding the monad and the handler wrappers. *)
Ltac desplegar :=
  cbv beta iota zeta delta
      [manejador tras bind ret lanzar leer escribir atrapar entretanto propiedad].

(** ** Running the store computations *)

Section Ejecucion.

Context {A B : Type}.

Lemma bind_run (m : M A) (k : A -> M B) (db : DB) :
  bind m k db = match m db with
                | (Ok a, db') => k a db'
                | (Lanza e, db') => (Lanza e, db')
                end.
Proof. reflexivity. Qed.


End Ejecucion.

Section LlamadasPrisma.

Variable db : DB.

Lemma ticket_findUnique_run (id : Id) :
  ticket_findUnique id db = (Ok (tickets db !! id), db).
Proof. reflexivity. Qed.

Lemma ticket_update_ok (id : Id) (d : TicketUpdateInput) (t : Ticket) :
  tickets db !! id = Some t ->
  agenteReferido d db = true ->
  ticket_update id d db
  = (Ok (aplicar d t), con_tickets (<[id := aplicar d t]> (tickets db)) db).
Proof.
  intros Ht Hd. unfold ticket_update. rewrite bind_run. simpl.
  rewrite Ht, Hd. reflexivity.
Qed.

Lemma ticket_update_ausente (id : Id) (d : TicketUpdateInput) :
  tickets db !! id = None -> ticket_update id d db = (Lanza P2025, db).
Proof.
  intros Ht. unfold ticket_update. rewrite bind_run. simpl.
  rewrite Ht. reflexivity.
Qed.

Lemma ticket_create_conflicto (t : Ticket) :
  numeroEnUso (t_numeroTicket t) db = true ->
  ticket_create t db = (Lanza P2002, db).
Proof.
  intros Hn. unfold ticket_create. rewrite bind_run. simpl.
  rewrite Hn, orb_true_r. reflexivity.
Qed.

Lemma historialEstado_create_ok (h : HistorialEstado) :
  is_Some (tickets db !! h_ticketId h) ->
  historialEstado_create h db
  = (Ok tt, con_historial (historialEstados db ++ [h]) db).
Proof.
  intros Ht. unfold historialEstado_create. rewrite bind_run. simpl.
  rewrite bool_decide_true by done. reflexivity.
Qed.

Lemma registroTrabajo_create_ok (r : RegistroTrabajo) :
  is_Some (tickets db !! r_ticketId r) ->
  is_Some (usuarios db !! r_agenteId r) ->
  registroTrabajo_create r db
  = (Ok r, con_registros (registrosTrabajo db ++ [r]) db).
Proof.
  intros Ht Hu. unfold registroTrabajo_create. rewrite bind_run. simpl.
  rewrite !bool_decide_true by done. reflexivity.
Qed.

Lemma usuario_findFirst_activo_ok (id : Id) (roles : list RolUsuario) (u : Usuario) :
  usuarios db !! id = Some u ->
  u_rol u ∈ roles ->
  u_estaActivo u = true ->
  usuario_findFirst_activo id roles db = (Ok (Some u), db).
Proof.
  intros Hu Hr Ha. unfold usuario_findFirst_activo. rewrite bind_run. simpl.
  rewrite Hu, Ha, bool_decide_true by done. reflexivity.
Qed.

(** The number lookup only reads, and never throws. *)
Lemma generateTicketNumber_lee (now : Date) :
  exists n, generateTicketNumber now db = (Ok n, db).
Proof. eexists. reflexivity. Qed.

End LlamadasPrisma.

(** ** Access control *)

Section AccesoPorRecurso.

Variables (usuario : Usuario) (id : Id) (db : DB).

Lemma verifyOwnership_existente (t : Ticket) :
  tickets db !! id = Some t ->
  verifyOwnership "ticket" usuario id db
  = if scopeFor usuario t then Siguiente else Responde accesoDenegado.
Proof.
  intros Ht. unfold verifyOwnership, scopeFor. simpl.
  rewrite bind_run, ticket_findUnique_run, Ht.
  destruct (u_rol usuario); desplegar; simpl; try reflexivity;
    case_bool_decide; reflexivity.
Qed.

Lemma whereDe_sinFiltros (t : Ticket) :
  cumple (whereDe usuario sinFiltros) t = scopeFor usuario t.
Proof.
  unfold cumple, whereDe, scopeFor, campo. simpl.
  destruct (u_rol usuario); simpl; rewrite ?andb_true_r; try reflexivity.
  - apply bool_decide_ext. split; congruence.
  - apply bool_decide_ext. split; congruence.
Qed.

End AccesoPorRecurso.

(** C2.  For every actor and every stored ticket, the single-resource check
    [verifyOwnership] lets the request through exactly when the ticket is in
    the actor's scope (ADMIN: all; department head: same department; agent:
    assigned to the agent; client: created by the client), answering 403
    otherwise; and the [where] that [obtenerTickets] builds for the actor
    from a query without filters selects exactly the tickets of that scope. *)
Theorem acceso_coincide_con_alcance (usuario : Usuario) (id : Id) (t : Ticket) (db : DB) :
  tickets db !! id = Some t ->
  verifyOwnership "ticket" usuario id db
    = (if scopeFor usuario t then Siguiente else Responde accesoDenegado)
  /\ cumple (whereDe usuario sinFiltros) t = scopeFor usuario t.
Proof.
  intros Ht. split.
  - by apply verifyOwnership_existente.
  - apply whereDe_sinFiltros.
Qed.

Lemma acceso_coincide_con_alcance_testigo :
  verifyOwnership "ticket" Escenario.luis Escenario.t1 Escenario.asignado
    = Responde accesoDenegado
  /\ cumple (whereDe Escenario.luis sinFiltros) Escenario.t1_de_ana = false.
Proof.
  apply (acceso_coincide_con_alcance Escenario.luis Escenario.t1 Escenario.t1_de_ana
           Escenario.asignado).
  vm_compute. reflexivity.
Defined.

Section RecursoInexistente.

Variables (usuario : Usuario) (id : Id) (db : DB).

(** C10.  When the requested ticket does not exist, [verifyOwnership] answers
    404 only to an ADMIN; for a department head, an agent or a client the
    comparison of the role reads a column of the missing row before the
    existence test is reached, and the request ends in the 500 answer of the
    middleware's [catch]. *)
Theorem verifyOwnership_inexistente :
  tickets db !! id = None ->
  verifyOwnership "ticket" usuario id db
  = Responde (if bool_decide (u_rol usuario = ADMIN)
              then json 404 (JError "Recurso no encontrado")
              else errorInterno).
Proof.
  intros Ht. unfold verifyOwnership. simpl.
  rewrite bind_run, ticket_findUnique_run, Ht.
  destruct (u_rol usuario); reflexivity.
Qed.

End RecursoInexistente.

Lemma verifyOwnership_inexistente_testigo :
  verifyOwnership "ticket" Escenario.ana Escenario.tAusente Escenario.asignado
    = Responde errorInterno
  /\ verifyOwnership "ticket" Escenario.admin Escenario.tAusente Escenario.asignado
    = Responde (json 404 (JError "Recurso no encontrado")).
Proof.
  split.
  - apply (verifyOwnership_inexistente Escenario.ana Escenario.tAusente Escenario.asignado).
    vm_compute. reflexivity.
  - apply (verifyOwnership_inexistente Escenario.admin Escenario.tAusente Escenario.asignado).
    vm_compute. reflexivity.
Defined.

(** ** Status changes and the history log *)

Section CambiosDeEstado.

Variables (ahora : Date) (db : DB).

(** The single status change on a stored ticket writes the new status and
    appends one history row that carries the status read before the update. *)
Lemma cambiarEstado_registra (id : Id) (t : Ticket) (nuevo : EstadoTicket)
    (comentario : option string) :
  tickets db !! id = Some t ->
  exists (t' : Ticket) (h : HistorialEstado),
    cambiarEstado ahora id (nombreEstado nuevo) comentario db
    = (json 200 (JTicket t'),
       con_historial (historialEstados db ++ [h])
                     (con_tickets (<[id := t']> (tickets db)) db))
    /\ t_estado t' = nuevo
    /\ h_ticketId h = id
    /\ h_estadoAnterior h = Some (t_estado t)
    /\ h_estadoNuevo h = nuevo.
Proof.
  intros Ht. unfold cambiarEstado, manejador.
  assert (Hv : estadoValido (nombreEstado nuevo) = Some nuevo)
    by (destruct nuevo; reflexivity).
  rewrite Hv, bind_run, ticket_findUnique_run, Ht.
  rewrite bind_run, (ticket_update_ok db id _ t Ht) by reflexivity.
  rewrite bind_run, historialEstado_create_ok
    by (simpl; rewrite lookup_insert_eq; eauto).
  eexists _, _. split; [reflexivity|]. simpl. auto.
Qed.

(** The bulk status change and the generic update write no history row,
    whatever they do to the tickets. *)
Lemma cambioEstadoMasivo_historial (ticketIds : list Id) (estado : EstadoTicket) :
  historialEstados (cambioEstadoMasivo ahora ticketIds estado db).2
  = historialEstados db.
Proof. reflexivity. Qed.

Lemma actualizarTicket_historial (id : Id) (updateData : TicketUpdateInput) :
  historialEstados (actualizarTicket id updateData db).2 = historialEstados db.
Proof.
  unfold actualizarTicket, manejador. rewrite bind_run.
  destruct (tickets db !! id) as [t|] eqn:Ht.
  - destruct (agenteReferido updateData db) eqn:Hd.
    + rewrite (ticket_update_ok db id _ t Ht Hd). reflexivity.
    + unfold ticket_update. rewrite bind_run. simpl. rewrite Ht, Hd. reflexivity.
  - rewrite ticket_update_ausente by done. reflexivity.
Qed.

End CambiosDeEstado.

(** C1 (the code departs from it).  The claim: every operation that changes a
    ticket's status appends exactly one history row, and no exposed operation
    sets [estado] without logging.  The run: after the client opened [t1]
    and the head assigned it, an ADMIN sends [POST /bulk/status] for [t1]
    with CERRADO, and then [PUT /t1] with [estado: CANCELADO].  Both answer
    200, the status moves from EN_PROGRESO to CERRADO and on to CANCELADO,
    and the history table is the same as before. *)
Theorem estado_cambia_sin_historial :
  let masivo := post_bulk_status (Escenario.fecha 3) Escenario.admin [Escenario.t1] CERRADO
                  Escenario.asignado in
  let generico := put_ticket Escenario.admin Escenario.t1 (Escenario.soloEstado CANCELADO)
                    masivo.2 in
  t_estado <$> tickets Escenario.asignado !! Escenario.t1 = Some EN_PROGRESO
  /\ masivo.1 = json 200 (JActualizados 1)
  /\ t_estado <$> tickets masivo.2 !! Escenario.t1 = Some CERRADO
  /\ historialEstados masivo.2 = historialEstados Escenario.asignado
  /\ status generico.1 = 200
  /\ t_estado <$> tickets generico.2 !! Escenario.t1 = Some CANCELADO
  /\ historialEstados generico.2 = historialEstados Escenario.asignado.
Proof. vm_compute. repeat split; reflexivity. Qed.

(** ** Sorting keeps the rows *)

Lemma elem_of_insertar {A} (antes : A -> A -> bool) (x y : A) (l : list A) :
  x ∈ insertar antes y l <-> x = y \/ x ∈ l.
Proof.
  induction l as [|z l IH]; simpl.
  - rewrite list_elem_of_singleton, elem_of_nil. tauto.
  - destruct (antes y z); rewrite !elem_of_cons; [tauto|].
    rewrite IH. tauto.
Qed.

Lemma elem_of_ordenar {A} (antes : A -> A -> bool) (x : A) (l : list A) :
  x ∈ ordenar antes l <-> x ∈ l.
Proof.
  unfold ordenar. induction l as [|y l IH]; simpl; [reflexivity|].
  rewrite elem_of_insertar, elem_of_cons, IH. reflexivity.
Qed.

(** ** Internal comments *)

Section ComentariosInternos.

Variables (usuario : Usuario) (db : DB).

(** The single-comment fetch refuses an internal comment to every client. *)
Lemma obtenerComentarioPorId_interno (id : Id) (c : Comentario) :
  u_rol usuario = CLIENTE ->
  List.find (fun x => String.eqb (c_id x) id) (comentarios db) = Some c ->
  c_esInterno c = true ->
  status (obtenerComentarioPorId usuario id db).1 = 200 -> False.
Proof.
  intros Hr Hc Hi. unfold obtenerComentarioPorId, manejador.
  rewrite bind_run. unfold comentario_findUnique. rewrite bind_run. simpl.
  rewrite Hc, Hr. desplegar. simpl.
  destruct (tickets db !! c_ticketId c); simpl; [|discriminate].
  rewrite Hi, andb_false_r. simpl. discriminate.
Qed.

(** The full-ticket fetch hands every comment of the ticket, internal or
    not, to whoever passes [verifyOwnership]. *)
Lemma get_ticket_comentarios (id : Id) (t : Ticket) (c : Comentario) :
  tickets db !! id = Some t ->
  scopeFor usuario t = true ->
  c ∈ comentarios db ->
  c_ticketId c = id ->
  exists cs rs hs,
    (get_ticket usuario id db).1 = json 200 (JDetalle t cs rs hs) /\ c ∈ cs.
Proof.
  intros Ht Hs Hc Hid. unfold get_ticket, tras.
  rewrite (verifyOwnership_existente usuario id db t Ht), Hs.
  unfold obtenerTicketPorId, manejador.
  rewrite bind_run, ticket_findUnique_run, Ht. simpl.
  eexists _, _, _. split; [reflexivity|].
  apply elem_of_ordenar. unfold comentariosDe.
  apply list_elem_of_In, filter_In. split; [by apply list_elem_of_In|].
  rewrite Hid. apply String.eqb_refl.
Qed.

End ComentariosInternos.

(** C3 (the code departs from it).  The claim: a CLIENT never sees an internal
    comment, through the single-comment fetch and the full-ticket fetch
    alike.  The run: Ana leaves an internal note on [t1]; the client who
    created [t1] is refused the note by [GET /api/comentarios/c1] (403), and
    receives it, flagged internal, in the answer of [GET /api/tickets/t1]. *)
Theorem cliente_recibe_comentario_interno :
  let detalle := (get_ticket Escenario.cliente Escenario.t1 Escenario.anotado).1 in
  u_rol Escenario.cliente = CLIENTE
  /\ c_esInterno Escenario.notaInterna = true
  /\ (get_comentario Escenario.cliente Escenario.c1 Escenario.anotado).1 = accesoDenegado
  /\ status detalle = 200
  /\ exists t registros historial,
       cuerpo detalle = JDetalle t [Escenario.notaInterna] registros historial.
Proof.
  vm_compute. repeat split; try reflexivity. eexists _, _, _. reflexivity.
Qed.

(** ** The list of an agent *)

Section Listado.

Variables (usuario : Usuario) (q : Consulta) (db : DB).

(** Whatever page is asked for, every ticket listed is a stored row that
    satisfies the [where] object built for the user and the query. *)
Lemma obtenerTickets_listados (ts : list Ticket) (page limit total totalPages : nat)
    (t : Ticket) :
  (obtenerTickets usuario q db).1 = json 200 (JLista ts page limit total totalPages) ->
  t ∈ ts ->
  cumple (whereDe usuario q) t = true /\ exists k, tickets db !! k = Some t.
Proof.
  unfold obtenerTickets, manejador, ticket_findMany, ticket_count.
  rewrite !bind_run. simpl.
  destruct (whereValido (whereDe usuario q)); simpl; [|discriminate].
  intros [= <- _ _ _ _] Hin.
  apply subseteq_take, subseteq_drop, elem_of_ordenar in Hin.
  apply list_elem_of_In, filter_In in Hin as [Hin Hc].
  split; [exact Hc|].
  apply list_elem_of_In in Hin. unfold filas in Hin.
  apply list_elem_of_fmap in Hin as [[k t'] [-> Hin]].
  exists k. by apply elem_of_map_to_list.
Qed.

(** Without an [agenteId] in the query, the role filter stands: an agent is
    listed only tickets assigned to the agent. *)
Lemma obtenerTickets_agente_sin_filtro (ts : list Ticket)
    (page limit total totalPages : nat) (t : Ticket) :
  u_rol usuario = AGENTE ->
  dado (q_agenteId q) = false ->
  (obtenerTickets usuario q db).1 = json 200 (JLista ts page limit total totalPages) ->
  t ∈ ts ->
  t_agenteId t = Some (u_id usuario).
Proof.
  intros Hr Hq Hl Hin.
  destruct (obtenerTickets_listados _ _ _ _ _ _ Hl Hin) as [Hc _].
  unfold cumple, whereDe in Hc. simpl in Hc. rewrite Hr, Hq in Hc. simpl in Hc.
  rewrite ?andb_true_iff in Hc. destruct_and?.
  match goal with
  | H : bool_decide (t_agenteId t = _) = true |- _ =>
      by apply bool_decide_eq_true_1 in H
  end.
Qed.

End Listado.

(** C4 (the code departs from it).  The claim: whatever the filters, the list
    an AGENT receives holds only tickets assigned to that agent.  The run:
    Luis, an agent with no ticket, sends [GET /api/tickets?agenteId=ana]; the
    query filter is assigned over the role filter, and the answer lists [t1],
    which is assigned to Ana. *)
Theorem agente_lista_tickets_ajenos :
  u_rol Escenario.luis = AGENTE
  /\ t_agenteId Escenario.t1_de_ana <> Some (u_id Escenario.luis)
  /\ (get_tickets Escenario.luis (Escenario.delAgente Escenario.idAna) Escenario.asignado).1
     = json 200 (JLista [Escenario.t1_de_ana] 1 20 1 1).
Proof.
  split; [reflexivity|]. split; [discriminate|]. vm_compute. reflexivity.
Qed.

(** ** Reopening *)

Section Reapertura.

Variables (ahora : Date) (usuario : Usuario) (id : Id) (db : DB).

(** The reopen route is closed to agents and clients. *)
Lemma post_reabrir_denegado :
  u_rol usuario ∉ ADMIN_O_JEFE ->
  post_reabrir ahora usuario id db = (accesoDenegado, db).
Proof.
  intros Hr. unfold post_reabrir, tras, authorize.
  rewrite bool_decide_false by done. reflexivity.
Qed.

(** The status route has no rule on the transition or on the role: whoever
    passes [verifyOwnership] moves the ticket from any status to any of the
    six. *)
Lemma patch_estado_sin_regla (t : Ticket) (nuevo : EstadoTicket) :
  tickets db !! id = Some t ->
  scopeFor usuario t = true ->
  exists (t' : Ticket) (db' : DB),
    patch_estado ahora usuario id (nombreEstado nuevo) None db = (json 200 (JTicket t'), db')
    /\ tickets db' !! id = Some t'
    /\ t_estado t' = nuevo.
Proof.
  intros Ht Hs. unfold patch_estado, tras, validar.
  assert (Hv : estadoValido (nombreEstado nuevo) = Some nuevo)
    by (destruct nuevo; reflexivity).
  rewrite Hv. simpl.
  rewrite (verifyOwnership_existente usuario id db t Ht), Hs.
  destruct (cambiarEstado_registra ahora db id t nuevo None Ht)
    as (t' & h & -> & He & _).
  eexists _, _. split; [reflexivity|]. split; [|exact He].
  simpl. apply lookup_insert_eq.
Qed.

End Reapertura.

(** C5 (the code departs from it).  The claim: only ADMIN or DEPARTMENT_HEAD
    can bring a CLOSED ticket back to OPEN; any other actor gets an error and
    the ticket stays as it is.  The run: the ADMIN closes [t1]; Ana, the
    agent it is assigned to, is refused by [POST /t1/reabrir] (403), and
    then sends [PATCH /t1/estado] with ABIERTO, which answers 200 and leaves
    the ticket OPEN. *)
Theorem agente_reabre_por_cambio_de_estado :
  let intento := patch_estado (Escenario.fecha 4) Escenario.ana Escenario.t1 "ABIERTO" None
                   Escenario.cerrado in
  u_rol Escenario.ana = AGENTE
  /\ t_estado <$> tickets Escenario.cerrado !! Escenario.t1 = Some CERRADO
  /\ post_reabrir (Escenario.fecha 4) Escenario.ana Escenario.t1 Escenario.cerrado
     = (accesoDenegado, Escenario.cerrado)
  /\ status intento.1 = 200
  /\ t_estado <$> tickets intento.2 !! Escenario.t1 = Some ABIERTO.
Proof. vm_compute. repeat split; reflexivity. Qed.

(** ** Assignment *)

(** C6 (counterexample).  The claim has an assignment of a ticket already
    IN_PROGRESS produce zero history rows.  The run: the head reassigns [t1],
    in progress and assigned to Ana, to Luis; only the assignee of the row
    changes, and the history table grows by one row. *)
Lemma reasignar_en_progreso_anota :
  t_estado <$> tickets Escenario.asignado !! Escenario.t1 = Some EN_PROGRESO
  /\ (patch_asignar (Escenario.fecha 3) Escenario.jefe Escenario.t1 Escenario.idLuis
        Escenario.asignado).1
     = json 200 (JTicket (aplicar (soloAgente Escenario.idLuis) Escenario.t1_de_ana))
  /\ length (historialEstados Escenario.reasignado)
     = S (length (historialEstados Escenario.asignado))
  /\ historialEstados Escenario.reasignado <> historialEstados Escenario.asignado.
Proof.
  split; [vm_compute; reflexivity|]. split; [vm_compute; reflexivity|].
  split; [vm_compute; reflexivity|]. vm_compute. discriminate.
Qed.

Section Asignacion.

Variables (ahora : Date) (usuario : Usuario) (id agenteId : Id) (db : DB).

Lemma asignacion_en_progreso (t : Ticket) :
  t_estado t = EN_PROGRESO ->
  aplicar (asignacion agenteId) t = aplicar (soloAgente agenteId) t.
Proof. intros He. unfold aplicar. simpl. rewrite He. reflexivity. Qed.

(** The whole effect of an accepted assignment.  The row returned by the
    update is IN_PROGRESS whatever the ticket was, so the previous status
    written to the history is always OPEN. *)
Lemma patch_asignar_run (t : Ticket) (agente : Usuario) :
  u_rol usuario ∈ ADMIN_O_JEFE ->
  tickets db !! id = Some t ->
  usuarios db !! agenteId = Some agente ->
  u_rol agente ∈ [AGENTE; JEFE_DEPARTAMENTO] ->
  u_estaActivo agente = true ->
  patch_asignar ahora usuario id agenteId db
  = (json 200 (JTicket (aplicar (asignacion agenteId) t)),
     con_historial
       (historialEstados db
        ++ [{| h_estadoAnterior := Some ABIERTO; h_estadoNuevo := EN_PROGRESO;
               h_comentario := Some ("Ticket asignado a " ++ u_nombreCompleto agente);
               h_cambiadoEn := ahora; h_ticketId := id |}])
       (con_tickets (<[id := aplicar (asignacion agenteId) t]> (tickets db)) db)).
Proof.
  intros Hrol Ht Hu Hr Ha.
  unfold patch_asignar, tras, authorize. rewrite bool_decide_true by done.
  unfold asignarTicket, manejador.
  rewrite bind_run, (usuario_findFirst_activo_ok db agenteId _ agente Hu Hr Ha).
  fold (asignacion agenteId).
  rewrite bind_run, (ticket_update_ok db id _ t Ht)
    by (unfold agenteReferido; simpl; rewrite Hu;
        apply bool_decide_eq_true_2; eauto).
  rewrite bind_run, historialEstado_create_ok
    by (simpl; rewrite lookup_insert_eq; eauto).
  reflexivity.
Qed.

(** C6 (amended).  For an ADMIN or a department head, a stored ticket that is
    OPEN or IN_PROGRESS and an active target user with role AGENT or
    DEPARTMENT_HEAD, [PATCH /:id/asignar] answers 200 and writes the assignee
    and the status IN_PROGRESS to the row, which for a ticket already
    IN_PROGRESS changes the assignee only; in both cases it appends exactly
    one history row, of this ticket and with new status IN_PROGRESS, and
    when the ticket was OPEN the row's previous status is OPEN. *)
Theorem asignar_anota_una_entrada (t : Ticket) (agente : Usuario) :
  u_rol usuario ∈ ADMIN_O_JEFE ->
  tickets db !! id = Some t ->
  t_estado t = ABIERTO \/ t_estado t = EN_PROGRESO ->
  usuarios db !! agenteId = Some agente ->
  u_rol agente ∈ [AGENTE; JEFE_DEPARTAMENTO] ->
  u_estaActivo agente = true ->
  exists (t' : Ticket) (h : HistorialEstado),
    patch_asignar ahora usuario id agenteId db
    = (json 200 (JTicket t'),
       con_historial (historialEstados db ++ [h])
                     (con_tickets (<[id := t']> (tickets db)) db))
    /\ t' = aplicar (asignacion agenteId) t
    /\ (t_estado t = EN_PROGRESO -> t' = aplicar (soloAgente agenteId) t)
    /\ h_ticketId h = id
    /\ h_estadoNuevo h = EN_PROGRESO
    /\ (t_estado t = ABIERTO -> h_estadoAnterior h = Some ABIERTO).
Proof.
  intros Hrol Ht _ Hu Hr Ha.
  rewrite (patch_asignar_run t agente Hrol Ht Hu Hr Ha).
  eexists _, _. split; [reflexivity|]. split; [reflexivity|].
  split; [apply asignacion_en_progreso|]. simpl. auto.
Qed.

End Asignacion.

Lemma asignar_anota_una_entrada_testigo :
  exists (t' : Ticket) (h : HistorialEstado),
    patch_asignar (Escenario.fecha 3) Escenario.jefe Escenario.t1 Escenario.idLuis
      Escenario.asignado
    = (json 200 (JTicket t'),
       con_historial (historialEstados Escenario.asignado ++ [h])
         (con_tickets (<[Escenario.t1 := t']> (tickets Escenario.asignado))
                      Escenario.asignado))
    /\ t' = aplicar (asignacion Escenario.idLuis) Escenario.t1_de_ana
    /\ (t_estado Escenario.t1_de_ana = EN_PROGRESO ->
        t' = aplicar (soloAgente Escenario.idLuis) Escenario.t1_de_ana)
    /\ h_ticketId h = Escenario.t1
    /\ h_estadoNuevo h = EN_PROGRESO
    /\ (t_estado Escenario.t1_de_ana = ABIERTO -> h_estadoAnterior h = Some ABIERTO).
Proof.
  apply (asignar_anota_una_entrada (Escenario.fecha 3) Escenario.jefe Escenario.t1
           Escenario.idLuis Escenario.asignado Escenario.t1_de_ana Escenario.luis).
  - apply (bool_decide_unpack _). vm_compute. exact I.
  - vm_compute. reflexivity.
  - right. reflexivity.
  - vm_compute. reflexivity.
  - apply (bool_decide_unpack _). vm_compute. exact I.
  - reflexivity.
Defined.

(** ** The chain of history rows *)

(** C7 (the code departs from it).  The claim: ordered by timestamp, the
    history rows of a ticket form a chain, each row's previous status being
    the new status of the row before.  The run: the client opens [t1], the
    head assigns it to Ana and then reassigns it to Luis.  [asignarTicket]
    takes the previous status from the row as already updated, so both
    assignment rows say OPEN to IN_PROGRESS, and the third row does not
    continue the second. *)
Theorem reasignacion_rompe_la_cadena :
  (h_estadoAnterior <$> historialDe Escenario.t1 Escenario.reasignado)
    = [None; Some ABIERTO; Some ABIERTO]
  /\ (h_estadoNuevo <$> historialDe Escenario.t1 Escenario.reasignado)
    = [ABIERTO; EN_PROGRESO; EN_PROGRESO]
  /\ (getTime ∘ h_cambiadoEn <$> historialDe Escenario.t1 Escenario.reasignado)
    = [1; 2; 3]%N
  /\ cadenaConectada Escenario.t1 Escenario.asignado = true
  /\ cadenaConectada Escenario.t1 Escenario.reasignado = false.
Proof. vm_compute. repeat split; reflexivity. Qed.

(** ** The work ledger *)

Section Ledger.

Variables (ahora : Date) (usuario : Usuario) (id : Id) (db : DB).

(** What [agregarRegistroTrabajo] does to a stored ticket: one row is
    appended to the work log and the same amount goes through the atomic
    increment, which adds to a stored number and leaves NULL as NULL. *)
Lemma agregarRegistroTrabajo_incrementa (t : Ticket) (descripcion : string)
    (horas : float) (fechaTrabajo : option Date) :
  tickets db !! id = Some t ->
  is_Some (usuarios db !! u_id usuario) ->
  let r := {| r_descripcion := descripcion; r_horas := horas;
              r_fechaTrabajo := default ahora fechaTrabajo;
              r_agenteId := u_id usuario; r_ticketId := id |} in
  let t' := aplicar {| d_asunto := None; d_descripcion := None; d_estado := None;
                       d_agenteId := None; d_horasReales := Some (FIncrement horas);
                       d_fechaResolucion := None; d_fechaCierre := None |} t in
  agregarRegistroTrabajo ahora usuario id descripcion horas fechaTrabajo db
  = (json 201 (JRegistro r),
     con_tickets (<[id := t']> (tickets db))
                 (con_registros (registrosTrabajo db ++ [r]) db))
  /\ t_horasReales t' = (fun h => (h + horas)%float) <$> t_horasReales t.
Proof.
  intros Ht Hu r t'. unfold agregarRegistroTrabajo, manejador.
  rewrite bind_run, registroTrabajo_create_ok by (simpl; rewrite ?Ht; eauto).
  rewrite bind_run, (ticket_update_ok _ id _ t) by (simpl; done).
  split; reflexivity.
Qed.

End Ledger.

(** A store in which the row of [id] holds another number than the sum does
    not satisfy the ledger invariant. *)
Lemma libro_descuadrado (id : Id) (t : Ticket) (db : DB) :
  tickets db !! id = Some t ->
  default 0%float (t_horasReales t) <> horasRegistradas id db ->
  ~ libroCuadrado id db.
Proof. intros Ht Hne Hl. exact (Hne (Hl t Ht)). Qed.

(** C8 (the code departs from it).  The claim: at all times [horasReales] is
    the sum of the hours of the ticket's work-log rows.  First run, the
    ordinary path: [horasReales] has no default and [crearTicket] does not
    set it; Ana logs 2.5 hours on [t1], the row is inserted, the answer is
    201, and the increment leaves the column NULL.  Second run: an ADMIN
    sends [PUT /api/tickets/t1] with the body [{ horasReales: 99 }]; the body
    is the [data] of the update, the answer is 200, the column holds 99 and
    the work log of [t1] is empty. *)
Theorem horas_reales_descuadradas :
  let trabajado := post_trabajo (Escenario.fecha 3) Escenario.ana Escenario.t1
                     "Cambio de toner y prueba de impresion" 2.5 None
                     Escenario.asignado in
  let sobrescrito := put_ticket Escenario.admin Escenario.t1 (Escenario.soloHoras 99)
                       Escenario.asignado in
  status trabajado.1 = 201
  /\ t_horasReales <$> tickets trabajado.2 !! Escenario.t1 = Some None
  /\ r_horas <$> registrosDe Escenario.t1 trabajado.2 = [2.5%float]
  /\ horasRegistradas Escenario.t1 trabajado.2 = 2.5%float
  /\ ~ libroCuadrado Escenario.t1 trabajado.2
  /\ status sobrescrito.1 = 200
  /\ t_horasReales <$> tickets sobrescrito.2 !! Escenario.t1 = Some (Some 99%float)
  /\ registrosDe Escenario.t1 sobrescrito.2 = []
  /\ horasRegistradas Escenario.t1 sobrescrito.2 = 0%float
  /\ ~ libroCuadrado Escenario.t1 sobrescrito.2.
Proof.
  repeat split; try (vm_compute; reflexivity).
  - eapply libro_descuadrado; [vm_compute; reflexivity|].
    vm_compute. discriminate.
  - eapply libro_descuadrado; [vm_compute; reflexivity|].
    vm_compute. discriminate.
Qed.

(** ** Ticket numbers *)

(** C9 (counterexample).  The claim has ticket creation retry once, with a
    regenerated number, when the insert meets a uniqueness conflict.  The
    run: while the request waits for its number lookup, which gives
    2026-11-000002, another creation is served and takes that number.  The
    handler answers 500 and writes nothing; with the retry of the claim the
    same request would have answered 201. *)
Lemma alta_con_conflicto_no_reintenta :
  crearTicket Escenario.otraAlta (Escenario.fecha 3) Escenario.t3 Escenario.cliente
    Escenario.impresora Escenario.asignado
  = (errorInterno, Escenario.otraAlta Escenario.asignado)
  /\ status (crearTicket_con_reintento Escenario.otraAlta (Escenario.fecha 3) Escenario.t3
               Escenario.cliente Escenario.impresora Escenario.asignado).1 = 201
  /\ crearTicket Escenario.otraAlta (Escenario.fecha 3) Escenario.t3 Escenario.cliente
       Escenario.impresora Escenario.asignado
     <> crearTicket_con_reintento Escenario.otraAlta (Escenario.fecha 3) Escenario.t3
          Escenario.cliente Escenario.impresora Escenario.asignado.
Proof.
  split; [vm_compute; reflexivity|]. split; [vm_compute; reflexivity|].
  intros H. apply (f_equal (fun r => status r.1)) in H.
  vm_compute in H. discriminate.
Qed.

Section Alta.

Variables (otras : DB -> DB) (ahora : Date) (uuid : Id) (usuario : Usuario)
          (body : CrearTicketBody) (db : DB).

(** C9 (amended).  When the number that [generateTicketNumber] returned is in
    use at the time of the insert, [crearTicket] does not retry: the
    rejection of the insert is caught by the handler's [catch], the answer is
    the 500 internal error, and the request writes nothing, so the store is
    the one the other requests left. *)
Theorem crearTicket_conflicto_sin_reintento (numero : string) :
  generateTicketNumber ahora db = (Ok numero, db) ->
  numeroEnUso numero (otras db) = true ->
  crearTicket otras ahora uuid usuario body db = (errorInterno, otras db).
Proof.
  intros Hg Hn. unfold crearTicket, manejador.
  rewrite bind_run, Hg, bind_run. unfold entretanto at 1.
  rewrite bind_run, ticket_create_conflicto by exact Hn.
  reflexivity.
Qed.

End Alta.

Lemma crearTicket_conflicto_sin_reintento_testigo :
  crearTicket Escenario.otraAlta (Escenario.fecha 3) Escenario.t3 Escenario.cliente
    Escenario.impresora Escenario.asignado
  = (errorInterno, Escenario.otraAlta Escenario.asignado).
Proof.
  apply (crearTicket_conflicto_sin_reintento Escenario.otraAlta (Escenario.fecha 3)
           Escenario.t3 Escenario.cliente Escenario.impresora Escenario.asignado
           "2026-11-000002").
  - vm_compute. reflexivity.
  - vm_compute. reflexivity.
Defined.

(** Without any other request in between, the same conflict arises once a
    month has seen 999999 tickets: the next number has seven digits, and it
    sorts, as a string, below 2026-11-999999, so every later lookup rebuilds
    it and every later creation of that month is answered 500. *)
Lemma numeracion_tras_999999 :
  let primero := crearTicket sola (Escenario.fecha 5) Escenario.t2 Escenario.cliente
                   Escenario.monitor Escenario.repleto in
  let segundo := crearTicket sola (Escenario.fecha 6) Escenario.t3 Escenario.cliente
                   Escenario.monitor primero.2 in
  generateTicketNumber (Escenario.fecha 5) Escenario.repleto
    = (Ok "2026-11-1000000", Escenario.repleto)
  /\ status primero.1 = 201
  /\ t_numeroTicket <$> tickets primero.2 !! Escenario.t2 = Some "2026-11-1000000"
  /\ generateTicketNumber (Escenario.fecha 6) primero.2
    = (Ok "2026-11-1000000", primero.2)
  /\ segundo = (errorInterno, primero.2).
Proof. vm_compute. repeat split; reflexivity. Qed.

(** * Further properties of the handlers and helpers *)

(** ** Further properties of the status handlers *)

Section EstadoDetalle.

Variables (ahora : Date) (id : Id) (db : DB).

(** X1.  A status change on a stored ticket answers 200 with the updated
    row, writes the new status, stamps the resolution date when the new
    status is RESUELTO and the closing date when it is CERRADO, and leaves
    every other column, including a date stamped earlier, as it was; the
    other tickets are untouched and the history row carries the comment of
    the request, or the default text when it is missing or empty. *)
Theorem cambiarEstado_columnas (t : Ticket) (nuevo : EstadoTicket)
    (comentario : option string) :
  tickets db !! id = Some t ->
  exists (t' : Ticket) (h : HistorialEstado),
    cambiarEstado ahora id (nombreEstado nuevo) comentario db
    = (json 200 (JTicket t'),
       con_historial (historialEstados db ++ [h])
                     (con_tickets (<[id := t']> (tickets db)) db))
    /\ t_estado t' = nuevo
    /\ t_fechaResolucion t'
       = (if bool_decide (nuevo = RESUELTO) then Some ahora else t_fechaResolucion t)
    /\ t_fechaCierre t'
       = (if bool_decide (nuevo = CERRADO) then Some ahora else t_fechaCierre t)
    /\ (t_id t', t_numeroTicket t', t_asunto t', t_descripcion t', t_prioridad t')
       = (t_id t, t_numeroTicket t, t_asunto t, t_descripcion t, t_prioridad t)
    /\ (t_horasReales t', t_creadoEn t', t_creadorId t', t_agenteId t',
        t_departamentoId t', t_categoriaId t')
       = (t_horasReales t, t_creadoEn t, t_creadorId t, t_agenteId t,
          t_departamentoId t, t_categoriaId t)
    /\ h_cambiadoEn h = ahora
    /\ h_comentario h
       = Some (match comentario with
               | Some c => if String.eqb c "" then "Estado cambiado a " ++ nombreEstado nuevo
                           else c
               | None => "Estado cambiado a " ++ nombreEstado nuevo
               end).
Proof.
  intros Ht. unfold cambiarEstado, manejador.
  assert (Hv : estadoValido (nombreEstado nuevo) = Some nuevo)
    by (destruct nuevo; reflexivity).
  rewrite Hv, bind_run, ticket_findUnique_run, Ht.
  rewrite bind_run, (ticket_update_ok db id _ t Ht) by reflexivity.
  rewrite bind_run, historialEstado_create_ok
    by (simpl; rewrite lookup_insert_eq; eauto).
  eexists _, _. split; [reflexivity|]. simpl.
  repeat split.
  - by destruct (bool_decide (nuevo = RESUELTO)).
  - by destruct (bool_decide (nuevo = CERRADO)).
  - destruct comentario as [c|]; simpl; [|reflexivity].
    by destruct (String.eqb c "").
Qed.

(** X2.  A status that is not one of the six names is answered 400, and a
    valid status for a ticket that is not stored is answered 404; in both
    cases nothing is written. *)
Theorem cambiarEstado_rechaza (estado : string) (comentario : option string) :
  estadoValido estado = None \/ tickets db !! id = None ->
  cambiarEstado ahora id estado comentario db
  = (match estadoValido estado with
     | None => json 400 (JError "Estado inválido")
     | Some _ => json 404 (JError "Ticket no encontrado")
     end, db).
Proof.
  intros H. unfold cambiarEstado, manejador.
  destruct (estadoValido estado) as [e|] eqn:He.
  - destruct H as [H|H]; [discriminate|].
    rewrite bind_run, ticket_findUnique_run, H. reflexivity.
  - reflexivity.
Qed.

End EstadoDetalle.

Lemma cambiarEstado_columnas_testigo :
  exists (t' : Ticket) (h : HistorialEstado),
    cambiarEstado (Escenario.fecha 5) Escenario.t1 (nombreEstado RESUELTO) (Some "")
      Escenario.asignado
    = (json 200 (JTicket t'),
       con_historial (historialEstados Escenario.asignado ++ [h])
         (con_tickets (<[Escenario.t1 := t']> (tickets Escenario.asignado))
                      Escenario.asignado))
    /\ t_estado t' = RESUELTO
    /\ t_fechaResolucion t' = Some (Escenario.fecha 5)
    /\ t_fechaCierre t' = None
    /\ (t_id t', t_numeroTicket t', t_asunto t', t_descripcion t', t_prioridad t')
       = (Escenario.t1, "2026-11-000001", "Impresora del piso 3",
          "La impresora no responde y muestra error", MEDIA)
    /\ (t_horasReales t', t_creadoEn t', t_creadorId t', t_agenteId t',
        t_departamentoId t', t_categoriaId t')
       = (None, Escenario.fecha 1, Escenario.idCliente, Some Escenario.idAna,
          Escenario.soporte, Escenario.hardware)
    /\ h_cambiadoEn h = Escenario.fecha 5
    /\ h_comentario h = Some "Estado cambiado a RESUELTO".
Proof.
  apply (cambiarEstado_columnas (Escenario.fecha 5) Escenario.t1 Escenario.asignado
           Escenario.t1_de_ana RESUELTO (Some "")).
  vm_compute. reflexivity.
Defined.

Lemma cambiarEstado_rechaza_testigo :
  cambiarEstado (Escenario.fecha 5) Escenario.t1 "REABIERTO" None Escenario.asignado
    = (json 400 (JError "Estado inválido"), Escenario.asignado)
  /\ cambiarEstado (Escenario.fecha 5) Escenario.tAusente "CERRADO" None Escenario.asignado
    = (json 404 (JError "Ticket no encontrado"), Escenario.asignado).
Proof.
  split.
  - apply (cambiarEstado_rechaza (Escenario.fecha 5) Escenario.t1 Escenario.asignado
             "REABIERTO" None).
    left. reflexivity.
  - apply (cambiarEstado_rechaza (Escenario.fecha 5) Escenario.tAusente
             Escenario.asignado "CERRADO" None).
    right. vm_compute. reflexivity.
Defined.

(** ** Reopening, assignment and the bulk operations *)

Section ReaperturaDetalle.

Variables (ahora : Date) (usuario : Usuario) (id : Id) (db : DB).

(** X3.  For an ADMIN, or the head of the ticket's department, the reopen
    route answers 200 on a stored ticket whatever its status: the row becomes
    ABIERTO with both dates cleared and its other columns kept, and one
    history row is appended that names CERRADO as previous status and the
    user in its comment. *)
Theorem post_reabrir_efecto (t : Ticket) :
  u_rol usuario ∈ ADMIN_O_JEFE ->
  tickets db !! id = Some t ->
  scopeFor usuario t = true ->
  let t' := {| t_id := t_id t; t_numeroTicket := t_numeroTicket t;
               t_asunto := t_asunto t; t_descripcion := t_descripcion t;
               t_estado := ABIERTO; t_prioridad := t_prioridad t;
               t_horasReales := t_horasReales t;
               t_fechaResolucion := None; t_fechaCierre := None;
               t_creadoEn := t_creadoEn t; t_creadorId := t_creadorId t;
               t_agenteId := t_agenteId t;
               t_departamentoId := t_departamentoId t;
               t_categoriaId := t_categoriaId t |} in
  post_reabrir ahora usuario id db
  = (json 200 (JTicket t'),
     con_historial
       (historialEstados db
        ++ [{| h_estadoAnterior := Some CERRADO; h_estadoNuevo := ABIERTO;
               h_comentario :=
                 Some ("Ticket reabierto por " ++ u_nombreCompleto usuario);
               h_cambiadoEn := ahora; h_ticketId := id |}])
       (con_tickets (<[id := t']> (tickets db)) db)).
Proof.
  intros Hr Ht Hs t'. unfold post_reabrir, tras, authorize.
  rewrite bool_decide_true by done.
  rewrite (verifyOwnership_existente usuario id db t Ht), Hs.
  unfold reabrirTicket, manejador.
  rewrite bind_run, (ticket_update_ok db id _ t Ht) by reflexivity.
  rewrite bind_run, historialEstado_create_ok
    by (simpl; rewrite lookup_insert_eq; eauto).
  reflexivity.
Qed.

End ReaperturaDetalle.

Lemma post_reabrir_efecto_testigo :
  (post_reabrir (Escenario.fecha 5) Escenario.jefe Escenario.t1 Escenario.asignado).1
  = json 200 (JTicket (aplicar (Escenario.soloEstado ABIERTO) Escenario.t1_de_ana))
  /\ (h_estadoAnterior <$>
        historialEstados
          (post_reabrir (Escenario.fecha 5) Escenario.jefe Escenario.t1
             Escenario.asignado).2)
     = [None; Some ABIERTO; Some CERRADO].
Proof.
  rewrite (post_reabrir_efecto (Escenario.fecha 5) Escenario.jefe Escenario.t1
             Escenario.asignado Escenario.t1_de_ana).
  - split; vm_compute; reflexivity.
  - apply (bool_decide_unpack _). vm_compute. exact I.
  - vm_compute. reflexivity.
  - reflexivity.
Defined.

Section AsignacionDetalle.

Variables (ahora : Date) (usuario : Usuario) (id agenteId : Id) (db : DB).

(** X4.  An assignment to a user who is not stored, is inactive, or is
    neither an agent nor a department head is answered 400 and writes
    nothing, whether or not the ticket exists. *)
Theorem patch_asignar_agente_invalido :
  u_rol usuario ∈ ADMIN_O_JEFE ->
  (forall agente, usuarios db !! agenteId = Some agente ->
     u_estaActivo agente = false \/ u_rol agente = ADMIN \/ u_rol agente = CLIENTE) ->
  patch_asignar ahora usuario id agenteId db
  = (json 400 (JError "Agente inválido"), db).
Proof.
  intros Hr Hag. unfold patch_asignar, tras, authorize.
  rewrite bool_decide_true by done. unfold asignarTicket, manejador.
  rewrite bind_run. unfold usuario_findFirst_activo. rewrite bind_run. simpl.
  destruct (usuarios db !! agenteId) as [agente|] eqn:Hu; [|reflexivity].
  destruct (Hag agente eq_refl) as [Ha|[Ha|Ha]]; rewrite Ha; simpl;
    rewrite ?andb_false_r; reflexivity.
Qed.

(** X5.  An accepted assignment of a ticket that is not stored ends in the
    500 answer, and nothing is written. *)
Theorem patch_asignar_ticket_ausente (agente : Usuario) :
  u_rol usuario ∈ ADMIN_O_JEFE ->
  usuarios db !! agenteId = Some agente ->
  u_rol agente ∈ [AGENTE; JEFE_DEPARTAMENTO] ->
  u_estaActivo agente = true ->
  tickets db !! id = None ->
  patch_asignar ahora usuario id agenteId db = (errorInterno, db).
Proof.
  intros Hr Hu Hra Ha Ht. unfold patch_asignar, tras, authorize.
  rewrite bool_decide_true by done. unfold asignarTicket, manejador.
  rewrite bind_run, (usuario_findFirst_activo_ok db agenteId _ agente Hu Hra Ha).
  rewrite bind_run, ticket_update_ausente by done. reflexivity.
Qed.

End AsignacionDetalle.

Lemma patch_asignar_agente_invalido_testigo :
  patch_asignar (Escenario.fecha 5) Escenario.admin Escenario.t1 Escenario.idCliente
    Escenario.asignado
  = (json 400 (JError "Agente inválido"), Escenario.asignado).
Proof.
  apply (patch_asignar_agente_invalido (Escenario.fecha 5) Escenario.admin Escenario.t1
           Escenario.idCliente Escenario.asignado).
  - apply (bool_decide_unpack _). vm_compute. exact I.
  - intros agente H. vm_compute in H. injection H as <-. right. right. reflexivity.
Defined.

Lemma patch_asignar_ticket_ausente_testigo :
  patch_asignar (Escenario.fecha 5) Escenario.admin Escenario.tAusente Escenario.idAna
    Escenario.asignado
  = (errorInterno, Escenario.asignado).
Proof.
  apply (patch_asignar_ticket_ausente (Escenario.fecha 5) Escenario.admin
           Escenario.tAusente Escenario.idAna Escenario.asignado Escenario.ana).
  - apply (bool_decide_unpack _). vm_compute. exact I.
  - vm_compute. reflexivity.
  - apply (bool_decide_unpack _). vm_compute. exact I.
  - reflexivity.
  - vm_compute. reflexivity.
Defined.

Section OperacionesMasivas.

Variables (ahora : Date) (ticketIds : list Id) (db : DB).

Lemma seleccion_acotada (f : Id * Ticket -> bool) :
  length (List.filter f (map_to_list (tickets db))) <= size (tickets db).
Proof.
  rewrite <- length_map_to_list.
  generalize (map_to_list (tickets db)).
  intros l. induction l as [|kt l IH]; simpl; [lia|].
  destruct (f kt); simpl; lia.
Qed.

(** X6.  The bulk assignment to a valid agent always answers 200.  Of the
    tickets named, those that are stored and ABIERTO or EN_PROGRESO get the
    agent and the status EN_PROGRESO; every other stored ticket, named or
    not, keeps its row; no ticket appears or disappears; and no history row
    is written. *)
Theorem asignacionMasiva_seleccion (agenteId : Id) (agente : Usuario) :
  usuarios db !! agenteId = Some agente ->
  u_rol agente ∈ [AGENTE; JEFE_DEPARTAMENTO] ->
  u_estaActivo agente = true ->
  exists (n : nat) (ts : gmap string Ticket),
    asignacionMasiva ticketIds agenteId db
    = (json 200 (JActualizados n), con_tickets ts db)
    /\ n <= size (tickets db)
    /\ forall k : Id,
         ts !! k
         = (fun t => if bool_decide (k ∈ ticketIds)
                        && bool_decide (t_estado t ∈ [ABIERTO; EN_PROGRESO])
                     then aplicar (asignacion agenteId) t else t)
           <$> tickets db !! k.
Proof.
  intros Hu Hr Ha. unfold asignacionMasiva, manejador.
  rewrite bind_run, (usuario_findFirst_activo_ok db agenteId _ agente Hu Hr Ha).
  fold (asignacion agenteId).
  rewrite bind_run. unfold ticket_updateMany. rewrite bind_run. simpl.
  unfold agenteReferido. simpl. rewrite Hu.
  rewrite bool_decide_true by eauto. simpl.
  eexists _, _. split; [reflexivity|]. split; [apply seleccion_acotada|].
  intros k. rewrite map_lookup_imap. by destruct (tickets db !! k).
Qed.

(** X7.  The bulk status change always answers 200.  Every stored ticket
    that is named gets the status, with the resolution date stamped for
    RESUELTO and the closing date for CERRADO, whatever its status was;
    every other ticket keeps its row, and the comments, the history and the
    work log are the same as before. *)
Theorem cambioEstadoMasivo_seleccion (estado : EstadoTicket) :
  exists (n : nat) (ts : gmap string Ticket),
    cambioEstadoMasivo ahora ticketIds estado db
    = (json 200 (JActualizados n), con_tickets ts db)
    /\ n <= size (tickets db)
    /\ (forall (k : Id) (t : Ticket),
          tickets db !! k = Some t -> k ∈ ticketIds ->
          exists t', ts !! k = Some t'
            /\ t_estado t' = estado
            /\ t_fechaResolucion t'
               = (if bool_decide (estado = RESUELTO) then Some ahora
                  else t_fechaResolucion t)
            /\ t_fechaCierre t'
               = (if bool_decide (estado = CERRADO) then Some ahora
                  else t_fechaCierre t)
            /\ t_agenteId t' = t_agenteId t)
    /\ (forall k : Id, k ∉ ticketIds -> ts !! k = tickets db !! k)
    /\ (forall k : Id, tickets db !! k = None -> ts !! k = None).
Proof.
  unfold cambioEstadoMasivo, manejador.
  rewrite bind_run. unfold ticket_updateMany. rewrite bind_run. simpl.
  eexists _, _. split; [reflexivity|]. split; [apply seleccion_acotada|].
  split; [|split].
  - intros k t Ht Hk. rewrite map_lookup_imap, Ht. simpl.
    rewrite bool_decide_true by done. eexists. split; [reflexivity|]. simpl.
    repeat split.
    + by destruct (bool_decide (estado = RESUELTO)).
    + by destruct (bool_decide (estado = CERRADO)).
  - intros k Hk. rewrite map_lookup_imap.
    destruct (tickets db !! k); simpl; [|reflexivity].
    by rewrite bool_decide_false.
  - intros k Hk. by rewrite map_lookup_imap, Hk.
Qed.

End OperacionesMasivas.

Lemma asignacionMasiva_seleccion_testigo :
  exists (n : nat) (ts : gmap string Ticket),
    asignacionMasiva [Escenario.t1; Escenario.tAusente] Escenario.idLuis Escenario.cerrado
    = (json 200 (JActualizados n), con_tickets ts Escenario.cerrado)
    /\ n <= size (tickets Escenario.cerrado)
    /\ forall k : Id,
         ts !! k
         = (fun t => if bool_decide (k ∈ [Escenario.t1; Escenario.tAusente])
                        && bool_decide (t_estado t ∈ [ABIERTO; EN_PROGRESO])
                     then aplicar (asignacion Escenario.idLuis) t else t)
           <$> tickets Escenario.cerrado !! k.
Proof.
  apply (asignacionMasiva_seleccion [Escenario.t1; Escenario.tAusente] Escenario.cerrado
           Escenario.idLuis Escenario.luis).
  - vm_compute. reflexivity.
  - apply (bool_decide_unpack _). vm_compute. exact I.
  - reflexivity.
Defined.

(** ** Routes closed to agents and clients *)

Section RutasReservadas.

Variables (ahora : Date) (usuario : Usuario) (db : DB).

(** X8.  An agent or a client who calls a route reserved to ADMIN and
    department heads (assign, reopen, bulk assign, bulk status, generic
    update, delete of a ticket or of a comment) never changes the store: the
    answer is 403, or the 400 of a validator that runs before the role
    check. *)
Theorem rutas_reservadas (id agenteId : Id) (ticketIds : list Id)
    (estado : EstadoTicket) (body : TicketUpdateInput) :
  u_rol usuario = AGENTE \/ u_rol usuario = CLIENTE ->
  let rechazo (r : Respuesta * DB) :=
    r = (accesoDenegado, db) \/ r = (datosInvalidos, db) in
  rechazo (patch_asignar ahora usuario id agenteId db)
  /\ rechazo (post_reabrir ahora usuario id db)
  /\ rechazo (post_bulk_assign usuario ticketIds agenteId db)
  /\ rechazo (post_bulk_status ahora usuario ticketIds estado db)
  /\ rechazo (put_ticket usuario id body db)
  /\ rechazo (delete_ticket usuario id db)
  /\ rechazo (delete_comentario usuario id db).
Proof.
  intros Hrol rechazo.
  assert (Hno : authorize ADMIN_O_JEFE usuario = Responde accesoDenegado).
  { unfold authorize. rewrite bool_decide_false; [done|].
    unfold ADMIN_O_JEFE. rewrite !elem_of_cons, elem_of_nil.
    intros [H|[H|[]]]; destruct Hrol; congruence. }
  assert (Hno' : authorize [ADMIN] usuario = Responde accesoDenegado).
  { unfold authorize. rewrite bool_decide_false; [done|].
    rewrite !elem_of_cons, elem_of_nil.
    intros [H|[]]; destruct Hrol; congruence. }
  unfold rechazo, patch_asignar, post_reabrir, post_bulk_assign, post_bulk_status,
    put_ticket, delete_ticket, delete_comentario, tras, validar.
  rewrite Hno, Hno'.
  repeat split; try (left; reflexivity);
    match goal with |- context [if ?b then _ else _] => destruct b end; auto.
Qed.

End RutasReservadas.

Lemma rutas_reservadas_testigo :
  (patch_asignar (Escenario.fecha 5) Escenario.ana Escenario.t1 Escenario.idAna
     Escenario.asignado = (accesoDenegado, Escenario.asignado)
   \/ patch_asignar (Escenario.fecha 5) Escenario.ana Escenario.t1 Escenario.idAna
        Escenario.asignado = (datosInvalidos, Escenario.asignado))
  /\ (post_bulk_status (Escenario.fecha 5) Escenario.ana [] CERRADO Escenario.asignado
      = (accesoDenegado, Escenario.asignado)
      \/ post_bulk_status (Escenario.fecha 5) Escenario.ana [] CERRADO Escenario.asignado
         = (datosInvalidos, Escenario.asignado)).
Proof.
  destruct (rutas_reservadas (Escenario.fecha 5) Escenario.ana Escenario.asignado
              Escenario.t1 Escenario.idAna [] CERRADO sinCambios)
    as (H1 & _ & _ & H4 & _).
  - left. reflexivity.
  - split; [exact H1 | exact H4].
Defined.

(** ** Sorting is a sorting *)

Section OrdenarCorrecto.

Context {A : Type} (antes : A -> A -> bool).

Local Abbreviation R := (fun a b : A => antes a b = true).

Lemma insertar_Permutation (x : A) (l : list A) : insertar antes x l ≡ₚ x :: l.
Proof.
  induction l as [|y l IH]; simpl; [reflexivity|].
  destruct (antes x y); [reflexivity|].
  rewrite IH. apply Permutation_swap.
Qed.

Lemma ordenar_Permutation (l : list A) : ordenar antes l ≡ₚ l.
Proof.
  unfold ordenar. induction l as [|x l IH]; simpl; [reflexivity|].
  by rewrite insertar_Permutation, IH.
Qed.

Hypothesis total : forall a b, antes a b = true \/ antes b a = true.

Lemma insertar_Sorted (x : A) (l : list A) :
  Sorted R l -> Sorted R (insertar antes x l).
Proof.
  induction l as [|y l IH]; simpl; intros Hs.
  - repeat constructor.
  - destruct (antes x y) eqn:Hxy.
    + constructor; [exact Hs|]. by constructor.
    + apply Sorted_inv in Hs as [Hs Hhd]. constructor; [by apply IH|].
      destruct l as [|z l]; simpl.
      * constructor. destruct (total x y); congruence.
      * destruct (antes x z).
        -- constructor. destruct (total x y); congruence.
        -- constructor. by apply HdRel_inv in Hhd.
Qed.

Lemma ordenar_Sorted (l : list A) : Sorted R (ordenar antes l).
Proof.
  unfold ordenar. induction l as [|x l IH]; simpl; [constructor|].
  by apply insertar_Sorted.
Qed.

End OrdenarCorrecto.



Lemma Sorted_mas_debil {A} (R S : relation A) (l : list A) :
  (forall a b, R a b -> S a b) -> Sorted R l -> Sorted S l.
Proof.
  intros Hsub. induction 1 as [|x l Hs IH Hhd]; constructor; [exact IH|].
  destruct Hhd; constructor; auto.
Qed.

(** ** The ticket list *)

Section ListadoDetalle.

Variables (usuario : Usuario) (q : Consulta) (db : DB).



(** X10.  Whatever the filters of the query, every ticket listed to a client
    was created by that client. *)
Theorem obtenerTickets_cliente (ts : list Ticket) (page limit total totalPages : nat)
    (t : Ticket) :
  u_rol usuario = CLIENTE ->
  (obtenerTickets usuario q db).1 = json 200 (JLista ts page limit total totalPages) ->
  t ∈ ts ->
  t_creadorId t = u_id usuario.
Proof.
  intros Hr Hl Hin.
  destruct (obtenerTickets_listados usuario q db _ _ _ _ _ _ Hl Hin) as [Hc _].
  unfold cumple, whereDe, campo in Hc. simpl in Hc. rewrite Hr in Hc. simpl in Hc.
  rewrite ?andb_true_iff in Hc. destruct_and?.
  match goal with
  | H : bool_decide (_ = t_creadorId t) = true |- _ =>
      apply bool_decide_eq_true_1 in H; by symmetry
  end.
Qed.

End ListadoDetalle.


Lemma obtenerTickets_cliente_testigo :
  t_creadorId Escenario.t1_de_ana = u_id Escenario.cliente.
Proof.
  apply (obtenerTickets_cliente Escenario.cliente (Escenario.delAgente Escenario.idAna)
           Escenario.asignado [Escenario.t1_de_ana] 1 20 1 1 Escenario.t1_de_ana).
  - reflexivity.
  - vm_compute. reflexivity.
  - apply list_elem_of_singleton. reflexivity.
Defined.

(** ** History and creation *)

Section HistorialYAlta.

Variables (ahora : Date) (usuario : Usuario) (db : DB).


(** X11.  For an actor with the ticket in scope, the history route answers
    200 with exactly the history rows of that ticket, each once, the newest
    first. *)
Theorem get_historial_completo (id : Id) (t : Ticket) :
  tickets db !! id = Some t ->
  scopeFor usuario t = true ->
  exists hs : list HistorialEstado,
    get_historial usuario id db = (json 200 (JHistorial hs), db)
    /\ hs ≡ₚ historialDe id db
    /\ (forall h, h ∈ hs <-> h ∈ historialEstados db /\ h_ticketId h = id)
    /\ StronglySorted
         (fun a b => (getTime (h_cambiadoEn b) <= getTime (h_cambiadoEn a))%N) hs.
Proof.
  intros Ht Hs. unfold get_historial, tras.
  rewrite (verifyOwnership_existente usuario id db t Ht), Hs.
  unfold obtenerHistorial, manejador. rewrite bind_run. simpl.
  eexists. split; [reflexivity|]. split; [apply ordenar_Permutation|]. split.
  - intros h. rewrite elem_of_ordenar. unfold historialDe.
    rewrite list_elem_of_In, filter_In, <- list_elem_of_In, String.eqb_eq.
    reflexivity.
  - apply Sorted_StronglySorted.
    { intros a b c ??. lia. }
    eapply Sorted_mas_debil; [|apply ordenar_Sorted].
    + intros a b Hab. simpl in Hab. by apply N.leb_le.
    + intros a b. simpl.
      destruct (N.leb_spec (getTime (h_cambiadoEn b)) (getTime (h_cambiadoEn a)));
        [by left|].
      right. apply N.leb_le. lia.
Qed.


End HistorialYAlta.

Lemma get_historial_completo_testigo :
  exists hs : list HistorialEstado,
    get_historial Escenario.cliente Escenario.t1 Escenario.reasignado
    = (json 200 (JHistorial hs), Escenario.reasignado)
    /\ hs ≡ₚ historialDe Escenario.t1 Escenario.reasignado
    /\ (forall h, h ∈ hs <->
                  h ∈ historialEstados Escenario.reasignado
                  /\ h_ticketId h = Escenario.t1)
    /\ StronglySorted
         (fun a b => (getTime (h_cambiadoEn b) <= getTime (h_cambiadoEn a))%N) hs.
Proof.
  apply (get_historial_completo Escenario.cliente Escenario.reasignado Escenario.t1
           (aplicar (soloAgente Escenario.idLuis) Escenario.t1_de_ana)).
  - vm_compute. reflexivity.
  - vm_compute. reflexivity.
Defined.

(** ** Logging work *)

Section TrabajoReservado.

Variables (ahora : Date) (usuario : Usuario) (id : Id) (db : DB).

(** X12.  Work is logged by agents and department heads on tickets of
    their scope only: an ADMIN and a client are refused, as is an agent or a
    head for a stored ticket outside their scope, and a work date in the
    future or more than thirty days back is invalid.  The refusal is the 400
    of the validators or the 403, and writes nothing. *)
Theorem post_trabajo_reservado (descripcion : string) (horas : float)
    (fechaTrabajo : option Date) :
  (u_rol usuario = ADMIN \/ u_rol usuario = CLIENTE
   \/ (exists t, tickets db !! id = Some t /\ scopeFor usuario t = false) ->
   post_trabajo ahora usuario id descripcion horas fechaTrabajo db
   = (datosInvalidos, db)
   \/ post_trabajo ahora usuario id descripcion horas fechaTrabajo db
      = (accesoDenegado, db))
  /\ (forall f, fechaTrabajo = Some f ->
        (getTime ahora < getTime f)%N
        \/ (getTime f + treintaDias < getTime ahora)%N ->
        post_trabajo ahora usuario id descripcion horas fechaTrabajo db
        = (datosInvalidos, db)).
Proof.
  unfold post_trabajo, tras, validar. split.
  - intros H. destruct (_ && _ && _ && _); [|by left]. right.
    unfold authorize. destruct H as [Hr|[Hr|(t & Ht & Hs)]].
    + rewrite Hr. reflexivity.
    + rewrite Hr. reflexivity.
    + case_bool_decide; [|reflexivity].
      by rewrite (verifyOwnership_existente usuario id db t Ht), Hs.
  - intros f -> H. simpl.
    replace ((getTime f <=? getTime ahora)%N
             && (getTime ahora - treintaDias <=? getTime f)%N) with false;
      [by rewrite andb_false_r|].
    symmetry. apply andb_false_iff. destruct H as [H|H].
    + left. apply N.leb_gt. exact H.
    + right. apply N.leb_gt. lia.
Qed.

End TrabajoReservado.

Lemma post_trabajo_reservado_testigo :
  (post_trabajo (Escenario.fecha 5) Escenario.admin Escenario.t1
     "Cambio del toner y prueba" 2 None Escenario.asignado
   = (datosInvalidos, Escenario.asignado)
   \/ post_trabajo (Escenario.fecha 5) Escenario.admin Escenario.t1
        "Cambio del toner y prueba" 2 None Escenario.asignado
      = (accesoDenegado, Escenario.asignado))
  /\ post_trabajo (Escenario.fecha 5) Escenario.ana Escenario.t1
       "Cambio del toner y prueba" 2 (Some (Escenario.fecha 6)) Escenario.asignado
     = (datosInvalidos, Escenario.asignado).
Proof.
  split.
  - apply (proj1 (post_trabajo_reservado (Escenario.fecha 5) Escenario.admin
                      Escenario.t1 Escenario.asignado "Cambio del toner y prueba" 2
                      None)).
    left. reflexivity.
  - apply (proj2 (post_trabajo_reservado (Escenario.fecha 5) Escenario.ana
                      Escenario.t1 Escenario.asignado "Cambio del toner y prueba" 2
                      (Some (Escenario.fecha 6))) (Escenario.fecha 6) eq_refl).
    left. vm_compute. reflexivity.
Defined.

(** ** Comments *)

Section ComentariosDetalle.

Variables (ahora : Date) (usuario : Usuario) (db : DB).

Lemma comentario_findUnique_run (id : Id) :
  comentario_findUnique id db
  = (Ok (List.find (fun c => String.eqb (c_id c) id) (comentarios db)), db).
Proof. reflexivity. Qed.

Lemma comentario_update_ok (id : Id) (contenido : string) (c : Comentario) :
  List.find (fun x => String.eqb (c_id x) id) (comentarios db) = Some c ->
  let c' := {| c_id := c_id c; c_contenido := contenido;
               c_esInterno := c_esInterno c; c_creadoEn := c_creadoEn c;
               c_autorId := c_autorId c; c_ticketId := c_ticketId c |} in
  comentario_update id contenido db
  = (Ok c',
     con_comentarios
       (List.map (fun x => if String.eqb (c_id x) id then c' else x) (comentarios db))
       db).
Proof. intros Hc c'. unfold comentario_update. desplegar. by rewrite Hc. Qed.

Lemma comentario_delete_ok (id : Id) (c : Comentario) :
  List.find (fun x => String.eqb (c_id x) id) (comentarios db) = Some c ->
  comentario_delete id db
  = (Ok tt,
     con_comentarios
       (List.filter (fun x => negb (String.eqb (c_id x) id)) (comentarios db)) db).
Proof. intros Hc. unfold comentario_delete. desplegar. by rewrite Hc. Qed.

(** X13.  The single-comment fetch answers 200 with the comment exactly when
    the comment's ticket is in the actor's scope and, for a client, the
    comment is not internal; otherwise it answers 403.  It never writes. *)
Theorem obtenerComentarioPorId_acceso (id : Id) (c : Comentario) (t : Ticket) :
  List.find (fun x => String.eqb (c_id x) id) (comentarios db) = Some c ->
  tickets db !! c_ticketId c = Some t ->
  obtenerComentarioPorId usuario id db
  = (if scopeFor usuario t
        && negb (bool_decide (u_rol usuario = CLIENTE) && c_esInterno c)
     then json 200 (JComentario c)
     else accesoDenegado, db).
Proof.
  intros Hc Ht. unfold obtenerComentarioPorId, manejador, scopeFor.
  rewrite bind_run, comentario_findUnique_run, Hc.
  rewrite bind_run, ticket_findUnique_run, Ht.
  destruct (u_rol usuario); desplegar; simpl; rewrite ?andb_true_r;
    try reflexivity; repeat case_bool_decide; simpl; try reflexivity;
    try congruence; by destruct (c_esInterno c).
Qed.


(** X15.  A user who is neither an ADMIN nor the author of a comment cannot
    edit it (403); its author, unless an ADMIN, cannot edit it once more than
    24 hours have passed since it was written (400).  In both cases nothing
    is written. *)
Theorem editarComentario_rechazos (id : Id) (c : Comentario) (contenido : string) :
  List.find (fun x => String.eqb (c_id x) id) (comentarios db) = Some c ->
  u_rol usuario <> ADMIN ->
  c_autorId c <> u_id usuario
  \/ (veinticuatroHoras < getTime ahora - getTime (c_creadoEn c))%N ->
  editarComentario ahora usuario id contenido db
  = (if bool_decide (c_autorId c = u_id usuario)
     then json 400 (JError "Tiempo excedido")
     else json 403 (JError "Acceso denegado"), db).
Proof.
  intros Hc Hr H. unfold editarComentario, manejador.
  rewrite bind_run, comentario_findUnique_run, Hc.
  rewrite (bool_decide_false (u_rol usuario = ADMIN)) by done. simpl.
  case_bool_decide as Ha; simpl; [|reflexivity].
  destruct H as [H|H]; [done|].
  apply N.ltb_lt in H. rewrite H. reflexivity.
Qed.

(** X16.  An ADMIN at any time, and the author within 24 hours, edit a
    comment: the answer is 200, the comment keeps its key, author, ticket,
    date and internal flag and gets the new text, and every other comment
    stays as it was, in the same order. *)
Theorem editarComentario_efecto (id : Id) (c : Comentario) (t : Ticket)
    (contenido : string) :
  List.find (fun x => String.eqb (c_id x) id) (comentarios db) = Some c ->
  tickets db !! c_ticketId c = Some t ->
  u_rol usuario = ADMIN
  \/ (c_autorId c = u_id usuario
      /\ (getTime ahora - getTime (c_creadoEn c) <= veinticuatroHoras)%N) ->
  let c' := {| c_id := c_id c; c_contenido := contenido;
               c_esInterno := c_esInterno c; c_creadoEn := c_creadoEn c;
               c_autorId := c_autorId c; c_ticketId := c_ticketId c |} in
  editarComentario ahora usuario id contenido db
  = (json 200 (JComentario c'),
     con_comentarios
       (List.map (fun x => if String.eqb (c_id x) id then c' else x) (comentarios db))
       db).
Proof.
  intros Hc Ht H c'. unfold editarComentario, manejador.
  rewrite bind_run, comentario_findUnique_run, Hc.
  assert (Hpuede : bool_decide (u_rol usuario = ADMIN)
                   || bool_decide (c_autorId c = u_id usuario) = true).
  { destruct H as [H|[H _]]; rewrite (bool_decide_true _ H);
      [reflexivity | apply orb_true_r]. }
  assert (Htarde : (veinticuatroHoras <? getTime ahora - getTime (c_creadoEn c))%N
                   && negb (bool_decide (u_rol usuario = ADMIN)) = false).
  { destruct H as [H|[_ H]].
    - rewrite (bool_decide_true _ H). apply andb_false_r.
    - apply N.ltb_ge in H. by rewrite H. }
  rewrite Hpuede, Htarde. simpl.
  rewrite bind_run, (comentario_update_ok id contenido c Hc).
  rewrite bind_run, ticket_findUnique_run.
  change (tickets (con_comentarios _ db)) with (tickets db). rewrite Ht.
  reflexivity.
Qed.

(** X17.  An ADMIN or a department head, of whatever department, deletes any
    stored comment: the answer is 200, the comment is gone and the others are
    kept in their order.  A missing comment is answered 404. *)
Theorem eliminarComentario_efecto (id : Id) :
  u_rol usuario ∈ ADMIN_O_JEFE ->
  (forall c, List.find (fun x => String.eqb (c_id x) id) (comentarios db) = Some c ->
             is_Some (tickets db !! c_ticketId c)) ->
  delete_comentario usuario id db
  = match List.find (fun x => String.eqb (c_id x) id) (comentarios db) with
    | Some _ =>
        (json 200 (JMensaje "Comentario eliminado exitosamente"),
         con_comentarios
           (List.filter (fun x => negb (String.eqb (c_id x) id)) (comentarios db)) db)
    | None => (json 404 (JError "Comentario no encontrado"), db)
    end.
Proof.
  intros Hr Hfk. unfold delete_comentario, tras, authorize.
  rewrite bool_decide_true by done. unfold eliminarComentario, manejador.
  rewrite bind_run, comentario_findUnique_run.
  destruct (List.find _ (comentarios db)) as [c|] eqn:Hc; [|reflexivity].
  unfold ADMIN_O_JEFE in Hr. rewrite bool_decide_true by done. simpl.
  rewrite bind_run, (comentario_delete_ok id c Hc).
  rewrite bind_run, ticket_findUnique_run.
  change (tickets (con_comentarios _ db)) with (tickets db).
  destruct (Hfk c eq_refl) as [t Ht]. rewrite Ht. reflexivity.
Qed.

(** X18.  The edit route nested under a ticket hands the handler the ticket's
    key, not the comment's: when no comment has the ticket's key, the answer
    is 404 and nothing is written, whichever comment the request names. *)
Theorem put_ticket_comentario_pierde_la_clave (id comentarioId : Id)
    (contenido : string) :
  u_rol usuario ∈ ADMIN_O_JEFE ->
  longitudEntre 1 2000 contenido = true ->
  List.find (fun x => String.eqb (c_id x) id) (comentarios db) = None ->
  put_ticket_comentario ahora usuario id comentarioId contenido db
  = (json 404 (JError "Comentario no encontrado"), db).
Proof.
  intros Hr Hl Hc. unfold put_ticket_comentario, tras, validar, authorize.
  rewrite Hl, bool_decide_true by done. unfold editarComentario, manejador.
  rewrite bind_run, comentario_findUnique_run, Hc. reflexivity.
Qed.

End ComentariosDetalle.

Lemma obtenerComentarioPorId_acceso_testigo :
  obtenerComentarioPorId Escenario.cliente Escenario.c1 Escenario.anotado
  = (accesoDenegado, Escenario.anotado)
  /\ obtenerComentarioPorId Escenario.ana Escenario.c1 Escenario.anotado
     = (json 200 (JComentario Escenario.notaInterna), Escenario.anotado).
Proof.
  split.
  - apply (obtenerComentarioPorId_acceso Escenario.cliente Escenario.anotado
             Escenario.c1 Escenario.notaInterna Escenario.t1_de_ana);
      vm_compute; reflexivity.
  - apply (obtenerComentarioPorId_acceso Escenario.ana Escenario.anotado
             Escenario.c1 Escenario.notaInterna Escenario.t1_de_ana);
      vm_compute; reflexivity.
Defined.


Lemma editarComentario_rechazos_testigo :
  editarComentario (Escenario.fecha 4) Escenario.luis Escenario.c1 "Corregido"
    Escenario.anotado
  = (json 403 (JError "Acceso denegado"), Escenario.anotado)
  /\ editarComentario (Escenario.fecha 90000000) Escenario.ana Escenario.c1 "Corregido"
       Escenario.anotado
     = (json 400 (JError "Tiempo excedido"), Escenario.anotado).
Proof.
  split.
  - apply (editarComentario_rechazos (Escenario.fecha 4) Escenario.luis Escenario.anotado
             Escenario.c1 Escenario.notaInterna "Corregido").
    + vm_compute. reflexivity.
    + discriminate.
    + left. discriminate.
  - apply (editarComentario_rechazos (Escenario.fecha 90000000) Escenario.ana
             Escenario.anotado Escenario.c1 Escenario.notaInterna "Corregido").
    + vm_compute. reflexivity.
    + discriminate.
    + right. vm_compute. reflexivity.
Defined.

Lemma editarComentario_efecto_testigo :
  (editarComentario (Escenario.fecha 4) Escenario.ana Escenario.c1 "Corregido"
     Escenario.anotado).1
  = json 200
      (JComentario
         {| c_id := Escenario.c1; c_contenido := "Corregido"; c_esInterno := true;
            c_creadoEn := Escenario.fecha 3; c_autorId := Escenario.idAna;
            c_ticketId := Escenario.t1 |}).
Proof.
  rewrite (editarComentario_efecto (Escenario.fecha 4) Escenario.ana Escenario.anotado
             Escenario.c1 Escenario.notaInterna Escenario.t1_de_ana "Corregido").
  - reflexivity.
  - vm_compute. reflexivity.
  - vm_compute. reflexivity.
  - right. split; [reflexivity | vm_compute; discriminate].
Defined.

Lemma eliminarComentario_efecto_testigo :
  delete_comentario Escenario.jefe Escenario.c1 Escenario.anotado
  = (json 200 (JMensaje "Comentario eliminado exitosamente"),
     con_comentarios [] Escenario.anotado).
Proof.
  apply (eliminarComentario_efecto Escenario.jefe Escenario.anotado Escenario.c1).
  - apply (bool_decide_unpack _). vm_compute. exact I.
  - intros c Hc. vm_compute in Hc. injection Hc as <-.
    exists Escenario.t1_de_ana. vm_compute. reflexivity.
Defined.

Lemma put_ticket_comentario_pierde_la_clave_testigo :
  put_ticket_comentario (Escenario.fecha 4) Escenario.admin Escenario.t1 Escenario.c1
    "Corregido" Escenario.anotado
  = (json 404 (JError "Comentario no encontrado"), Escenario.anotado).
Proof.
  apply (put_ticket_comentario_pierde_la_clave (Escenario.fecha 4) Escenario.admin
           Escenario.anotado Escenario.t1 Escenario.c1 "Corregido").
  - apply (bool_decide_unpack _). vm_compute. exact I.
  - vm_compute. reflexivity.
  - vm_compute. reflexivity.
Defined.

(** ** Deleting a ticket *)

Lemma elem_of_filter_ajeno {A : Type} (f : A -> Id) (id : Id) (l : list A) (x : A) :
  x ∈ List.filter (fun y => negb (String.eqb (f y) id)) l <-> x ∈ l /\ f x <> id.
Proof.
  rewrite !list_elem_of_In, List.filter_In, negb_true_iff, String.eqb_neq.
  reflexivity.
Qed.

Section BajaDeTicket.

Variables (usuario : Usuario) (db : DB).

(** X19.  [DELETE /api/tickets/:id] by an ADMIN removes a stored ticket
    whatever its status, and with it exactly the comments, history rows and
    work-log rows of that ticket; every other row, and the users, stay.  For
    a missing ticket the answer is 500 and nothing changes. *)
Theorem delete_ticket_cascada (id : Id) :
  u_rol usuario = ADMIN ->
  (tickets db !! id = None -> delete_ticket usuario id db = (errorInterno, db))
  /\ (is_Some (tickets db !! id) ->
      exists db',
        delete_ticket usuario id db
        = (json 200 (JMensaje "Ticket eliminado exitosamente"), db')
        /\ usuarios db' = usuarios db
        /\ tickets db' = delete id (tickets db)
        /\ (forall c, c ∈ comentarios db' <-> c ∈ comentarios db /\ c_ticketId c <> id)
        /\ (forall h, h ∈ historialEstados db'
                      <-> h ∈ historialEstados db /\ h_ticketId h <> id)
        /\ (forall r, r ∈ registrosTrabajo db'
                      <-> r ∈ registrosTrabajo db /\ r_ticketId r <> id)).
Proof.
  intros Hr. unfold delete_ticket, tras, authorize.
  rewrite bool_decide_true by (rewrite Hr; apply list_elem_of_here).
  unfold eliminarTicket, manejador, ticket_delete. desplegar.
  split.
  - intros Ht. rewrite Ht. reflexivity.
  - intros [t Ht]. rewrite Ht. eexists. split; [reflexivity|]. simpl.
    split; [reflexivity|]. split; [reflexivity|].
    split; [|split]; intros x; apply elem_of_filter_ajeno.
Qed.

End BajaDeTicket.

Lemma delete_ticket_cascada_testigo :
  exists db',
    delete_ticket Escenario.admin Escenario.t1 Escenario.anotado
    = (json 200 (JMensaje "Ticket eliminado exitosamente"), db')
    /\ tickets db' = delete Escenario.t1 (tickets Escenario.anotado)
    /\ forall c, c ∈ comentarios db'
                 <-> c ∈ comentarios Escenario.anotado /\ c_ticketId c <> Escenario.t1.
Proof.
  destruct (delete_ticket_cascada Escenario.admin Escenario.anotado Escenario.t1
              eq_refl) as [_ H].
  destruct H as (db' & H1 & _ & H2 & H3 & _).
  - exists Escenario.t1_de_ana. vm_compute. reflexivity.
  - exists db'. split; [exact H1 | split; [exact H2 | exact H3]].
Defined.

(** ** The dashboard's recent tickets *)

Section Recientes.

Variables (usuario : Usuario) (db : DB).




End Recientes.


(** ** Who is told of a comment *)

(** X21.  Of a new comment only the ticket's creator and its assignee are
    notified, never the comment's author, and nobody at all when the comment
    is internal; each of the two who is not the author is notified of a
    comment that is not internal, and a user who is both the creator and the
    assignee is notified twice. *)
Theorem notificadosPorComentario_destinatarios (ticket : Ticket)
    (esInterno : option bool) (autor : Usuario) :
  (u_id autor ∉ notificadosPorComentario ticket esInterno autor)
  /\ (forall d, d ∈ notificadosPorComentario ticket esInterno autor ->
                d = t_creadorId ticket \/ t_agenteId ticket = Some d)
  /\ (esInterno = Some true -> notificadosPorComentario ticket esInterno autor = [])
  /\ (esInterno <> Some true -> forall d,
        d <> u_id autor -> d <> "" ->
        (d = t_creadorId ticket \/ t_agenteId ticket = Some d ->
         d ∈ notificadosPorComentario ticket esInterno autor)
        /\ (d = t_creadorId ticket /\ t_agenteId ticket = Some d ->
            notificadosPorComentario ticket esInterno autor = [d; d])).
Proof.
  unfold notificadosPorComentario, destinatariosNuevoComentario.
  destruct esInterno as [[]|]; simpl.
  - split; [apply not_elem_of_nil|]. split; [by intros d H%elem_of_nil|].
    split; [done|]. intros Hn. by destruct Hn.
  - destruct (t_agenteId ticket) as [a|]; repeat case_bool_decide; simpl;
      try destruct (String.eqb_spec a ""); simpl;
      (split; [rewrite ?elem_of_cons, ?elem_of_nil; intuition congruence|]);
      (split; [intros d; rewrite ?elem_of_cons, ?elem_of_nil; intuition congruence|]);
      (split; [discriminate|]);
      intros _ d Hd1 Hd2;
      (split; [rewrite ?elem_of_cons, ?elem_of_nil; intuition congruence|]);
      intros [-> [= ->]]; congruence.
  - destruct (t_agenteId ticket) as [a|]; repeat case_bool_decide; simpl;
      try destruct (String.eqb_spec a ""); simpl;
      (split; [rewrite ?elem_of_cons, ?elem_of_nil; intuition congruence|]);
      (split; [intros d; rewrite ?elem_of_cons, ?elem_of_nil; intuition congruence|]);
      (split; [discriminate|]);
      intros _ d Hd1 Hd2;
      (split; [rewrite ?elem_of_cons, ?elem_of_nil; intuition congruence|]);
      intros [-> [= ->]]; congruence.
Qed.

Lemma notificadosPorComentario_destinatarios_testigo :
  notificadosPorComentario Escenario.t1_de_ana (Some true) Escenario.cliente = []
  /\ Escenario.idAna ∈ notificadosPorComentario Escenario.t1_de_ana None Escenario.cliente.
Proof.
  destruct (notificadosPorComentario_destinatarios Escenario.t1_de_ana (Some true)
              Escenario.cliente) as (_ & _ & H1 & _).
  destruct (notificadosPorComentario_destinatarios Escenario.t1_de_ana None
              Escenario.cliente) as (_ & _ & _ & H2).
  split; [apply H1; reflexivity|].
  apply (H2 ltac:(discriminate) Escenario.idAna); [discriminate | discriminate |].
  right. reflexivity.
Defined.

(** ** Texts *)

Lemma todos_app (P : ascii -> bool) (s r : string) :
  todos P (s ++ r) = todos P s && todos P r.
Proof.
  induction s as [|c s IH]; simpl; [reflexivity|].
  by rewrite IH, andb_assoc.
Qed.




(** Two texts that start with the entities of two characters and are equal
    start with the same character. *)
Lemma entidad_inj (c d : ascii) (x y : string) :
  entidad c ++ x = entidad d ++ y -> c = d /\ x = y.
Proof.
  unfold entidad.
  destruct (Ascii.eqb_spec c "&"), (Ascii.eqb_spec d "&"),
           (Ascii.eqb_spec c "<"), (Ascii.eqb_spec d "<"),
           (Ascii.eqb_spec c ">"), (Ascii.eqb_spec d ">"),
           (Ascii.eqb_spec c comillas), (Ascii.eqb_spec d comillas),
           (Ascii.eqb_spec c apostrofo), (Ascii.eqb_spec d apostrofo);
    subst; simpl; intros H; try discriminate H; try congruence;
    injection H; intros; subst; try congruence; by split.
Qed.

Lemma entidad_sin_marcas (c : ascii) :
  todos (fun c => negb (marcado c)) (entidad c) = true.
Proof.
  unfold entidad, marcado.
  destruct (Ascii.eqb_spec c "&"); [reflexivity|].
  destruct (Ascii.eqb_spec c "<"); [reflexivity|].
  destruct (Ascii.eqb_spec c ">"); [reflexivity|].
  destruct (Ascii.eqb_spec c comillas); [reflexivity|].
  destruct (Ascii.eqb_spec c apostrofo); [reflexivity|].
  simpl. rewrite andb_true_r.
  repeat (rewrite (proj2 (Ascii.eqb_neq _ _)) by assumption). reflexivity.
Qed.

(** X22.  [escapeHtml] leaves none of the characters [<], [>], the double
    and the single quote in its result, changes nothing in a text that has
    none of them and no ampersand, and loses nothing: two texts with the
    same escaped form are the same text. *)
Theorem escapeHtml_sin_marcas (text : string) :
  todos (fun c => negb (marcado c)) (escapeHtml text) = true
  /\ (todos (fun c => negb (marcado c || Ascii.eqb c "&")) text = true ->
      escapeHtml text = text)
  /\ (forall otro, escapeHtml text = escapeHtml otro -> text = otro).
Proof.
  split; [|split].
  - induction text as [|c r IH]; simpl; [reflexivity|].
    by rewrite todos_app, entidad_sin_marcas, IH.
  - induction text as [|c r IH]; simpl; [reflexivity|].
    intros [Hc Hr]%andb_true_iff. rewrite (IH Hr).
    unfold entidad, marcado in *.
    destruct (Ascii.eqb c "&"), (Ascii.eqb c "<"), (Ascii.eqb c ">"),
             (Ascii.eqb c comillas), (Ascii.eqb c apostrofo);
      simpl in Hc; try discriminate Hc; reflexivity.
  - induction text as [|c r IH]; intros [|d r']; simpl.
    + reflexivity.
    + intros H. exfalso. unfold entidad in H.
      destruct (Ascii.eqb d "&"), (Ascii.eqb d "<"), (Ascii.eqb d ">"),
               (Ascii.eqb d comillas), (Ascii.eqb d apostrofo); discriminate H.
    + intros H. exfalso. unfold entidad in H.
      destruct (Ascii.eqb c "&"), (Ascii.eqb c "<"), (Ascii.eqb c ">"),
               (Ascii.eqb c comillas), (Ascii.eqb c apostrofo); discriminate H.
    + intros [-> H]%entidad_inj. by rewrite (IH r' H).
Qed.

Lemma escapeHtml_sin_marcas_testigo :
  escapeHtml "a.b-c" = "a.b-c".
Proof.
  destruct (escapeHtml_sin_marcas "a.b-c") as (_ & H & _).
  apply H. vm_compute. reflexivity.
Defined.



(** ** File names *)

Section NombresDeArchivo.

Local Abbreviation Q := (fun c : ascii => permitido c || Ascii.eqb c "_").

Lemma reemplazarAjenos_todos (s : string) : todos Q (reemplazarAjenos s) = true.
Proof.
  induction s as [|c s IH]; simpl; [reflexivity|].
  rewrite IH, andb_true_r. destruct (permitido c) eqn:Hc; simpl.
  - by rewrite Hc.
  - reflexivity.
Qed.

Lemma colapsar_todos (P : ascii -> bool) (s : string) :
  todos P s = true -> todos P (colapsar s) = true.
Proof.
  induction s as [|c r IH]; [reflexivity|].
  intros [Hc Hr]%andb_true_iff. specialize (IH Hr). simpl.
  destruct (Ascii.eqb c "_").
  - destruct r as [|d r']; [by simpl; rewrite Hc|].
    destruct (Ascii.eqb d "_"); [exact IH|].
    change (P c && todos P (colapsar (String d r')) = true). by rewrite Hc, IH.
  - change (P c && todos P (colapsar r) = true). by rewrite Hc, IH.
Qed.

(** [colapsar] keeps the first character. *)
Lemma colapsar_cabeza (c : ascii) (r : string) :
  exists r', colapsar (String c r) = String c r'.
Proof.
  revert c. induction r as [|d r IH]; intros c.
  - simpl. destruct (Ascii.eqb c "_"); eauto.
  - change (colapsar (String c (String d r)))
      with (if Ascii.eqb c "_"
            then if Ascii.eqb d "_" then colapsar (String d r)
                 else String c (colapsar (String d r))
            else String c (colapsar (String d r))).
    destruct (Ascii.eqb_spec c "_") as [->|]; [|eauto].
    destruct (Ascii.eqb_spec d "_") as [->|]; [|eauto].
    apply IH.
Qed.

Lemma sinDobleGuion_cons (c d : ascii) (r : string) :
  sinDobleGuion (String c (String d r))
  = negb (Ascii.eqb c "_" && Ascii.eqb d "_") && sinDobleGuion (String d r).
Proof. reflexivity. Qed.

Lemma colapsar_sinDobleGuion (s : string) : sinDobleGuion (colapsar s) = true.
Proof.
  induction s as [|c r IH]; [reflexivity|].
  destruct r as [|d r'].
  - simpl. by destruct (Ascii.eqb c "_").
  - change (colapsar (String c (String d r')))
      with (if Ascii.eqb c "_"
            then if Ascii.eqb d "_" then colapsar (String d r')
                 else String c (colapsar (String d r'))
            else String c (colapsar (String d r'))).
    destruct (colapsar_cabeza d r') as [x Hx].
    destruct (Ascii.eqb_spec c "_") as [->|Hc].
    + destruct (Ascii.eqb_spec d "_") as [->|Hd]; [exact IH|].
      rewrite Hx in *. rewrite sinDobleGuion_cons, IH.
      by rewrite (proj2 (Ascii.eqb_neq _ _) Hd).
    + rewrite Hx in *. rewrite sinDobleGuion_cons, IH.
      by rewrite (proj2 (Ascii.eqb_neq _ _) Hc).
Qed.

Lemma todos_cola (P : ascii -> bool) (c : ascii) (r : string) :
  todos P (String c r) = true -> todos P r = true.
Proof. by intros [_ ?]%andb_true_iff. Qed.

Lemma sinDobleGuion_cola (c : ascii) (r : string) :
  sinDobleGuion (String c r) = true -> sinDobleGuion r = true.
Proof. destruct r; [reflexivity|]. by intros [_ ?]%andb_true_iff. Qed.

Lemma sinGuionFinal_todos (P : ascii -> bool) (s : string) :
  todos P s = true -> todos P (sinGuionFinal s) = true.
Proof.
  induction s as [|c r IH]; [reflexivity|].
  intros [Hc Hr]%andb_true_iff. destruct r as [|d r'].
  - simpl. destruct (Ascii.eqb c "_"); simpl; [reflexivity|by rewrite Hc].
  - change (P c && todos P (sinGuionFinal (String d r')) = true).
    by rewrite Hc, (IH Hr).
Qed.

(** [sinGuionFinal] keeps the first character of a text that does not start
    with an underscore. *)
Lemma sinGuionFinal_cabeza (c : ascii) (r : string) :
  c <> "_"%char -> exists r', sinGuionFinal (String c r) = String c r'.
Proof.
  intros Hc. destruct r as [|d r'].
  - simpl. rewrite (proj2 (Ascii.eqb_neq _ _) Hc). eauto.
  - change (sinGuionFinal (String c (String d r')))
      with (String c (sinGuionFinal (String d r'))). eauto.
Qed.

Lemma sinGuionFinal_sinDobleGuion (s : string) :
  sinDobleGuion s = true -> sinDobleGuion (sinGuionFinal s) = true.
Proof.
  induction s as [|c r IH]; [reflexivity|]. intros Hs.
  destruct r as [|d r'].
  - simpl. by destruct (Ascii.eqb c "_").
  - change (sinGuionFinal (String c (String d r')))
      with (String c (sinGuionFinal (String d r'))).
    pose proof (IH (sinDobleGuion_cola _ _ Hs)) as IH'.
    destruct (sinGuionFinal (String d r')) as [|e x] eqn:He; [reflexivity|].
    assert (e = d) as ->.
    { destruct r' as [|f r''].
      - simpl in He. destruct (Ascii.eqb d "_"); congruence.
      - change (String d (sinGuionFinal (String f r'')) = String e x) in He.
        congruence. }
    rewrite sinDobleGuion_cons in Hs. apply andb_true_iff in Hs as [Hcd _].
    by rewrite sinDobleGuion_cons, Hcd, IH'.
Qed.

Lemma sinGuionFinal_termina (s : string) :
  sinDobleGuion s = true -> terminaEnGuion (sinGuionFinal s) = false.
Proof.
  induction s as [|c r IH]; [reflexivity|]. intros Hs.
  destruct r as [|d r'].
  - simpl. destruct (Ascii.eqb c "_") eqn:Hc; simpl; [reflexivity|exact Hc].
  - change (sinGuionFinal (String c (String d r')))
      with (String c (sinGuionFinal (String d r'))).
    pose proof (IH (sinDobleGuion_cola _ _ Hs)) as IH'.
    destruct (sinGuionFinal (String d r')) as [|e x] eqn:He; [|exact IH'].
    destruct r' as [|f r''].
    + simpl in He. destruct (Ascii.eqb d "_") eqn:Hd; [|discriminate He].
      rewrite sinDobleGuion_cons in Hs. simpl in Hs.
      rewrite Hd, !andb_true_r in Hs. simpl. by apply negb_true_iff.
    + change (String d (sinGuionFinal (String f r'')) = "") in He. discriminate He.
Qed.

Lemma recortarGuiones_forma (s : string) :
  todos Q s = true -> sinDobleGuion s = true ->
  todos Q (recortarGuiones s) = true
  /\ sinDobleGuion (recortarGuiones s) = true
  /\ empiezaConGuion (recortarGuiones s) = false
  /\ terminaEnGuion (recortarGuiones s) = false.
Proof.
  intros Ht Hs. destruct s as [|c r]; [done|]. unfold recortarGuiones.
  destruct (Ascii.eqb_spec c "_") as [->|Hc].
  - pose proof (todos_cola _ _ _ Ht) as Ht'.
    pose proof (sinDobleGuion_cola _ _ Hs) as Hs'.
    split; [by apply sinGuionFinal_todos|].
    split; [by apply sinGuionFinal_sinDobleGuion|].
    split; [|by apply sinGuionFinal_termina].
    destruct r as [|d r']; [reflexivity|].
    assert (d <> "_"%char) as Hd.
    { intros ->. rewrite sinDobleGuion_cons in Hs. discriminate Hs. }
    destruct (sinGuionFinal_cabeza d r' Hd) as [x ->]. simpl.
    by apply Ascii.eqb_neq.
  - split; [by apply sinGuionFinal_todos|].
    split; [by apply sinGuionFinal_sinDobleGuion|].
    split; [|by apply sinGuionFinal_termina].
    destruct (sinGuionFinal_cabeza c r Hc) as [x ->]. simpl.
    by apply Ascii.eqb_neq.
Qed.

Lemma minuscula_permitido (c : ascii) :
  permitido c = true -> minuscula c = c.
Proof.
  unfold permitido, minuscula. intros H.
  destruct ((65 <=? N_of_ascii c)%N && (N_of_ascii c <=? 90)%N) eqn:Hm;
    [|reflexivity].
  exfalso. apply andb_true_iff in Hm as [H1 H2].
  apply N.leb_le in H1, H2.
  rewrite !orb_true_iff, !andb_true_iff, !N.leb_le, !N.eqb_eq in H. lia.
Qed.

Lemma sinGuionFinal_fijo (s : string) :
  terminaEnGuion s = false -> sinGuionFinal s = s.
Proof.
  induction s as [|c r IH]; [reflexivity|]. destruct r as [|d r'].
  - simpl. by intros ->.
  - intros H. change (String c (sinGuionFinal (String d r')) = String c (String d r')).
    by rewrite (IH H).
Qed.

Lemma colapsar_fijo (s : string) :
  sinDobleGuion s = true -> colapsar s = s.
Proof.
  induction s as [|c r IH]; [reflexivity|]. intros Hs.
  pose proof (IH (sinDobleGuion_cola _ _ Hs)) as IH'.
  destruct r as [|d r'].
  - simpl. by destruct (Ascii.eqb c "_").
  - change (colapsar (String c (String d r')))
      with (if Ascii.eqb c "_"
            then if Ascii.eqb d "_" then colapsar (String d r')
                 else String c (colapsar (String d r'))
            else String c (colapsar (String d r'))).
    rewrite IH'. rewrite sinDobleGuion_cons in Hs.
    apply andb_true_iff in Hs as [Hcd _].
    destruct (Ascii.eqb c "_"), (Ascii.eqb d "_"); try reflexivity.
    discriminate Hcd.
Qed.

Lemma normalizar_fijo (s : string) :
  todos Q s = true -> reemplazarAjenos (minusculas s) = s.
Proof.
  induction s as [|c r IH]; [reflexivity|].
  intros [Hc Hr]%andb_true_iff. simpl. rewrite (IH Hr).
  destruct (permitido c) eqn:Hp.
  - by rewrite (minuscula_permitido c Hp), Hp.
  - simpl in Hc. apply Ascii.eqb_eq in Hc as ->. reflexivity.
Qed.

(** X24.  A sanitised file name is written in lower-case letters, digits,
    dots, hyphens and underscores only, has no two underscores in a row and
    neither starts nor ends with one; sanitising it again changes nothing. *)
Theorem sanitizeFilename_forma (filename : string) :
  todos (fun c => permitido c || Ascii.eqb c "_") (sanitizeFilename filename) = true
  /\ sinDobleGuion (sanitizeFilename filename) = true
  /\ empiezaConGuion (sanitizeFilename filename) = false
  /\ terminaEnGuion (sanitizeFilename filename) = false
  /\ sanitizeFilename (sanitizeFilename filename) = sanitizeFilename filename.
Proof.
  assert (H : todos Q (sanitizeFilename filename) = true
              /\ sinDobleGuion (sanitizeFilename filename) = true
              /\ empiezaConGuion (sanitizeFilename filename) = false
              /\ terminaEnGuion (sanitizeFilename filename) = false).
  { apply recortarGuiones_forma.
    - apply colapsar_todos, reemplazarAjenos_todos.
    - apply colapsar_sinDobleGuion. }
  destruct H as (H1 & H2 & H3 & H4). repeat (split; [assumption|]).
  set (r := sanitizeFilename filename) in *.
  unfold sanitizeFilename at 1.
  rewrite (normalizar_fijo r H1), (colapsar_fijo r H2).
  destruct r as [|c x]; [reflexivity|]. unfold recortarGuiones.
  simpl in H3. rewrite H3. by apply sinGuionFinal_fijo.
Qed.

End NombresDeArchivo.

(** ** The input sanitizer *)

Lemma app_assoc_string (a b c : string) : (a ++ b) ++ c = a ++ (b ++ c).
Proof.
  induction a as [|x a IH]; [reflexivity|].
  change (String x ((a ++ b) ++ c) = String x (a ++ (b ++ c))). by rewrite IH.
Qed.

Lemma reemplazar_app (c : ascii) (por s r : string) :
  reemplazar c por (s ++ r) = reemplazar c por s ++ reemplazar c por r.
Proof.
  induction s as [|d s IH]; simpl; [reflexivity|].
  rewrite IH. destruct (Ascii.eqb d c); simpl; [|reflexivity].
  symmetry. apply app_assoc_string.
Qed.

Lemma sanitizeString_app (s r : string) :
  sanitizeString (s ++ r) = sanitizeString s ++ sanitizeString r.
Proof. unfold sanitizeString. by rewrite !reemplazar_app. Qed.

Lemma sanitizeString_uno (c : ascii) :
  sanitizeString (String c "") = saneado c.
Proof.
  unfold saneado.
  destruct (Ascii.eqb_spec c "<") as [->|H1]; [reflexivity|].
  destruct (Ascii.eqb_spec c ">") as [->|H2]; [reflexivity|].
  destruct (Ascii.eqb_spec c comillas) as [->|H3]; [reflexivity|].
  destruct (Ascii.eqb_spec c apostrofo) as [->|H4]; [reflexivity|].
  destruct (Ascii.eqb_spec c "/") as [->|H5]; [reflexivity|].
  unfold sanitizeString. simpl.
  rewrite (proj2 (Ascii.eqb_neq _ _) H1). simpl.
  rewrite (proj2 (Ascii.eqb_neq _ _) H2). simpl.
  rewrite (proj2 (Ascii.eqb_neq _ _) H3). simpl.
  rewrite (proj2 (Ascii.eqb_neq _ _) H4). simpl.
  rewrite (proj2 (Ascii.eqb_neq _ _) H5). reflexivity.
Qed.

Lemma sanitizeString_deUnaPasada (s : string) :
  sanitizeString s = deUnaPasada s.
Proof.
  induction s as [|c r IH]; [reflexivity|].
  change (String c r) with (String c "" ++ r).
  rewrite sanitizeString_app, sanitizeString_uno, IH. reflexivity.
Qed.

Lemma saneado_inofensivo (c : ascii) :
  todos (fun c => negb (peligroso c)) (saneado c) = true.
Proof.
  unfold saneado, peligroso, marcado.
  destruct (Ascii.eqb_spec c "<"); [reflexivity|].
  destruct (Ascii.eqb_spec c ">"); [reflexivity|].
  destruct (Ascii.eqb_spec c comillas); [reflexivity|].
  destruct (Ascii.eqb_spec c apostrofo); [reflexivity|].
  destruct (Ascii.eqb_spec c "/"); [reflexivity|].
  simpl. rewrite andb_true_r.
  repeat (rewrite (proj2 (Ascii.eqb_neq _ _)) by assumption). reflexivity.
Qed.

Lemma deUnaPasada_fijo (s : string) :
  todos (fun c => negb (peligroso c)) s = true -> deUnaPasada s = s.
Proof.
  induction s as [|c r IH]; [reflexivity|].
  intros [Hc Hr]%andb_true_iff. simpl. rewrite (IH Hr).
  unfold saneado, peligroso, marcado in *.
  destruct (Ascii.eqb c "<"), (Ascii.eqb c ">"), (Ascii.eqb c comillas),
           (Ascii.eqb c apostrofo), (Ascii.eqb c "/");
    simpl in Hc; try discriminate Hc; reflexivity.
Qed.

Lemma sanitizeString_sin_peligro (s : string) :
  todos (fun c => negb (peligroso c)) (sanitizeString s) = true.
Proof.
  rewrite sanitizeString_deUnaPasada.
  induction s as [|c r IH]; simpl; [reflexivity|].
  by rewrite todos_app, saneado_inofensivo, IH.
Qed.

Lemma sanitizeString_fijo (s : string) :
  todos (fun c => negb (peligroso c)) s = true -> sanitizeString s = s.
Proof. intros Hs. rewrite sanitizeString_deUnaPasada. by apply deUnaPasada_fijo. Qed.

(** X25.  The five chained replacements of the sanitizer act as one pass
    that replaces each of [<], [>], the two quotes and [/] by its entity, no
    replacement text holding a character that a later replacement looks
    for: the result has none of the five characters, a text without them is
    unchanged, and sanitising twice is sanitising once.  The ampersand is
    not replaced. *)
Theorem sanitizeString_inofensivo (s : string) :
  sanitizeString s = deUnaPasada s
  /\ todos (fun c => negb (peligroso c)) (sanitizeString s) = true
  /\ (todos (fun c => negb (peligroso c)) s = true -> sanitizeString s = s)
  /\ sanitizeString (sanitizeString s) = sanitizeString s.
Proof.
  split; [apply sanitizeString_deUnaPasada|].
  split; [apply sanitizeString_sin_peligro|].
  split; [apply sanitizeString_fijo|].
  apply sanitizeString_fijo, sanitizeString_sin_peligro.
Qed.

Lemma sanitizeString_inofensivo_testigo :
  sanitizeString "Tom & Jerry" = "Tom & Jerry".
Proof.
  destruct (sanitizeString_inofensivo "Tom & Jerry") as (_ & _ & H & _).
  apply H. vm_compute. reflexivity.
Defined.



(** ** Numbers written in decimal *)







(** ** Ticket numbers *)











Section UltimoDelMes.

Variables (prefijo : string) (db : DB).

Local Abbreviation mayor :=
  (fun a b : Ticket => String.leb (t_numeroTicket b) (t_numeroTicket a)).




End UltimoDelMes.

Section Numeracion.

Variables (now : Date) (db : DB).





End Numeracion.


(** ** The order of ticket numbers *)








Section NumeroLibre.

Variables (now : Date) (db : DB).



End NumeroLibre.


